(** * jpx_stock_pred: fundamentals scoring and price momentum

    A shallow embedding of [src/analyzer.py] (class [StockAnalyzer]) and of
    the constants of [src/config.py], followed by the properties proved
    about it.

    Modelling conventions.
    - A pandas/numpy float64 is a value of [float]: an exact rational, one
      of the two infinities, or NaN.  Rounding and the sign of zero are
      left out; division by zero yields an infinity or NaN as numpy does.
    - A DataFrame is the list of its rows, in row order; a Series with an
      index is a list of (index, value) pairs.
    - Library calls whose result is only fixed up to the order of equal
      keys ([sort_index], [sort_values] with the default sort kind) are
      parameters constrained by their documented contract.
    - The remote provider (yfinance) is a function from the attempt number
      to what the provider does on that attempt. *)

From Stdlib Require Import String List Bool Arith ZArith QArith Qabs.
From Stdlib Require Import Lia Lqa Permutation Sorted.
From Stdlib Require Import Ascii DecimalString.
Import ListNotations.

Local Open Scope string_scope.
Local Open Scope list_scope.
Local Open Scope nat_scope.

(** ** Idealised float64 *)

Inductive float : Type :=
| Fin (q : Q)
| PInf
| NInf
| NaN.

Definition Qltb (a b : Q) : bool := negb (Qle_bool b a).

Definition isnan (x : float) : bool :=
  match x with NaN => true | _ => false end.

Definition fneg (x : float) : float :=
  match x with
  | Fin q => Fin (- q)
  | PInf => NInf
  | NInf => PInf
  | NaN => NaN
  end.

Definition fabs (x : float) : float :=
  match x with
  | Fin q => Fin (Qabs q)
  | PInf | NInf => PInf
  | NaN => NaN
  end.

Definition fadd (x y : float) : float :=
  match x, y with
  | NaN, _ | _, NaN => NaN
  | Fin a, Fin b => Fin (a + b)
  | PInf, NInf | NInf, PInf => NaN
  | PInf, _ | _, PInf => PInf
  | NInf, _ | _, NInf => NInf
  end.

Definition fsub (x y : float) : float := fadd x (fneg y).

Definition fdiv (x y : float) : float :=
  match x, y with
  | NaN, _ | _, NaN => NaN
  | Fin a, Fin b =>
      if Qeq_bool b 0 then
        if Qeq_bool a 0 then NaN else if Qltb 0 a then PInf else NInf
      else Fin (a / b)
  | Fin _, (PInf | NInf) => Fin 0
  | PInf, Fin b => if Qltb b 0 then NInf else PInf
  | NInf, Fin b => if Qltb b 0 then PInf else NInf
  | (PInf | NInf), (PInf | NInf) => NaN
  end.

(** Python's [x < y] on floats: false as soon as one side is NaN. *)
Definition fltb (x y : float) : bool :=
  match x, y with
  | NaN, _ | _, NaN => false
  | Fin a, Fin b => Qltb a b
  | NInf, (Fin _ | PInf) => true
  | Fin _, PInf => true
  | _, _ => false
  end.

Definition fgtb (x y : float) : bool := fltb y x.

(** Python's [x == y] on floats: NaN is equal to nothing. *)
Definition feqb (x y : float) : bool :=
  match x, y with
  | Fin a, Fin b => Qeq_bool a b
  | PInf, PInf | NInf, NInf => true
  | _, _ => false
  end.


(** ** Positional access, as pandas' [iloc] *)

(** [s.iloc[-k]] for [1 <= k <= len(s)]. *)
Definition iloc_neg (l : list float) (k : nat) : float :=
  nth (length l - k) l NaN.

(** [s.iloc[-k:]] for [1 <= k <= len(s)]. *)
Definition iloc_tail (l : list float) (k : nat) : list float :=
  skipn (length l - k) l.

(** [s.sum()]: NaN entries are skipped, the empty sum is 0. *)
Definition series_sum (l : list float) : float :=
  fold_left fadd (filter (fun x => negb (isnan x)) l) (Fin 0).

(** ** config.py *)

Module config.

Definition YEARS : nat := 3.

(** Seconds slept between two attempts. *)
Definition RETRY_DELAY : nat := 2.

Definition MAX_RETRIES : nat := 3.

Definition WEIGHTS : list (string * Q) :=
  [ ("score_eps", 1%Q); ("score_rev", 1%Q); ("score_roe", 1%Q);
    ("score_per", 1%Q); ("score_pbr", 1%Q) ].

Definition JPX_BASE_URL : string := "https://www.jpx.co.jp".

Definition TICKER_UPDATE_INTERVAL_DAYS : Z := 180.

End config.

(** ** calculate_change_rate *)

Definition date : Type := Z.

(** A Series indexed by statement date. *)
Definition series : Type := list (date * float).

Definition dropna (s : series) : series :=
  filter (fun p => negb (isnan (snd p))) s.

Definition values (s : series) : list float := map snd s.

(** What [Series.sort_index] promises: the same entries, by ascending
    index.  The relative order of entries with equal index is the
    library's choice. *)
Definition sort_index_contract (sort_index : series -> series) : Prop :=
  forall s,
    Permutation (sort_index s) s /\
    StronglySorted (fun a b => (fst a <= fst b)%Z) (sort_index s).

Definition calculate_change_rate (sort_index : series -> series)
    (s : series) (years : nat) : option float :=
  let sorted_series := values (sort_index (dropna s)) in
  if length sorted_series <? years + 1 then None
  else
    let start := iloc_neg sorted_series (years + 1) in
    let end_ := iloc_neg sorted_series 1 in
    if feqb start (Fin 0) then None
    else Some (fdiv (fsub end_ start) (fabs start)).

(** ** get_fundamental_single *)

(** A value as it sits in a result dict or an object column. *)
Inductive cell : Type :=
| Num (f : float)
| PyNone
| Text (s : string).

(** [pd.isna] on a scalar. *)
Definition isna (c : cell) : bool :=
  match c with
  | Num f => isnan f
  | PyNone => true
  | Text _ => false
  end.

Fixpoint lookup {A : Type} (k : string) (l : list (string * A)) : option A :=
  match l with
  | [] => None
  | (k', v) :: rest => if (k' =? k)%string then Some v else lookup k rest
  end.

(** The transposed income statement [income_stmt.T]: one row per
    statement date, in the provider's order, one column per line item. *)
Record statement : Type := {
  index : list date;
  columns : list (string * list float)
}.

Definition empty (df : statement) : bool :=
  match index df, columns df with
  | [], _ | _, [] => true
  | _, _ => false
  end.

(** [df[name]]: [None] stands for the KeyError. *)
Definition getitem (df : statement) (name : string) : option series :=
  option_map (combine (index df)) (lookup name (columns df)).

Inductive income_stmt_result : Type :=
| IncomeRaises
| IncomeNone
| IncomeTable (df : statement).

Inductive info_result : Type :=
| InfoRaises
| InfoDict (d : list (string * cell)).

(** [info.get(key, None)]. *)
Definition info_get (d : list (string * cell)) (key : string) : cell :=
  match lookup key d with
  | Some v => v
  | None => PyNone
  end.

(** What the provider does during one pass through the body of the retry
    loop: either an exception reaches the outer handler, or the accesses
    to [income_stmt] and [info] behave as recorded. *)
Inductive provider_response : Type :=
| Raises
| Responds (income : income_stmt_result) (info : info_result).

(** The result dict; a field is [None] while its key is not in the dict. *)
Record fund_result : Type := {
  ticker : string;
  eps_growth : option cell;
  revenue_growth : option cell;
  per : option cell;
  pbr : option cell;
  roe : option cell;
  has_recent_missing_data : option bool
}.

Definition new_result (t : string) : fund_result :=
  {| ticker := t; eps_growth := None; revenue_growth := None;
     per := None; pbr := None; roe := None;
     has_recent_missing_data := None |}.

Definition set_eps_growth (v : cell) (r : fund_result) : fund_result :=
  {| ticker := ticker r; eps_growth := Some v;
     revenue_growth := revenue_growth r;
     per := per r; pbr := pbr r; roe := roe r;
     has_recent_missing_data := has_recent_missing_data r |}.

Definition set_revenue_growth (v : cell) (r : fund_result) : fund_result :=
  {| ticker := ticker r; eps_growth := eps_growth r;
     revenue_growth := Some v;
     per := per r; pbr := pbr r; roe := roe r;
     has_recent_missing_data := has_recent_missing_data r |}.

Definition set_snapshot (vper vpbr vroe : cell) (r : fund_result)
    : fund_result :=
  {| ticker := ticker r; eps_growth := eps_growth r;
     revenue_growth := revenue_growth r;
     per := Some vper; pbr := Some vpbr; roe := Some vroe;
     has_recent_missing_data := has_recent_missing_data r |}.

Definition set_missing (b : bool) (r : fund_result) : fund_result :=
  {| ticker := ticker r; eps_growth := eps_growth r;
     revenue_growth := revenue_growth r;
     per := per r; pbr := pbr r; roe := roe r;
     has_recent_missing_data := Some b |}.

(** The value [calculate_change_rate] hands back, as stored in the dict. *)
Definition rate_cell (o : option float) : cell :=
  match o with
  | Some f => Num f
  | None => PyNone
  end.

(** [series.iloc[:2].isna().any()]. *)
Definition recent_two_missing (s : series) : bool :=
  existsb isnan (firstn 2 (values s)).

Inductive attempt_outcome : Type :=
| Raised
| Returned (r : fund_result).

Inductive event : Type :=
| Fetch (attempt : nat)
| Sleep (seconds : nat).

Definition is_fetch (e : event) : bool :=
  match e with Fetch _ => true | Sleep _ => false end.

(** How many times the provider was asked, and for how long the caller
    slept, according to a log. *)
Definition attempts_made (log : list event) : nat :=
  length (filter is_fetch log).

Definition seconds_slept (log : list event) : nat :=
  fold_right (fun e acc => match e with Sleep d => d + acc | Fetch _ => acc end)
    0 log.

Section Fundamentals.
Variable sort_index : series -> series.
Variable years : nat.

(** The body of the outer [try] for one attempt. *)
Definition fundamental_attempt (t : string) (resp : provider_response)
    : attempt_outcome :=
  match resp with
  | Raises => Raised
  | Responds income info =>
      let result := new_result t in
      match income with
      | IncomeRaises | IncomeNone => Returned (set_missing true result)
      | IncomeTable df =>
          if empty df then Returned (set_missing true result)
          else
            let result :=
              match getitem df "Diluted EPS" with
              | Some eps_series =>
                  let result :=
                    set_eps_growth
                      (rate_cell
                         (calculate_change_rate sort_index eps_series years))
                      result in
                  if recent_two_missing eps_series
                  then set_missing true result else result
              | None => set_missing true (set_eps_growth (Num NaN) result)
              end in
            let result :=
              match getitem df "Total Revenue" with
              | Some rev_series =>
                  let result :=
                    set_revenue_growth
                      (rate_cell
                         (calculate_change_rate sort_index rev_series years))
                      result in
                  if recent_two_missing rev_series
                  then set_missing true result else result
              | None =>
                  set_missing true (set_revenue_growth (Num NaN) result)
              end in
            let result :=
              match info with
              | InfoDict d =>
                  let result :=
                    set_snapshot (info_get d "trailingPE")
                      (info_get d "priceToBook")
                      (info_get d "returnOnEquity") result in
                  if existsb isna
                       [info_get d "trailingPE"; info_get d "priceToBook";
                        info_get d "returnOnEquity"]
                  then set_missing true result else result
              | InfoRaises =>
                  set_missing true (set_snapshot PyNone PyNone PyNone result)
              end in
            let result :=
              match has_recent_missing_data result with
              | None => set_missing false result
              | Some _ => result
              end in
            Returned result
      end
  end.

(** [for attempt in range(max_retries)], run over the attempts still to
    come; the log records every fetch attempt and every sleep. *)
Fixpoint retry_loop (max_retries : nat) (t : string)
    (provider : nat -> provider_response) (attempts : list nat)
    (log : list event) : option fund_result * list event :=
  match attempts with
  | [] => (None, log)
  | attempt :: rest =>
      match fundamental_attempt t (provider attempt) with
      | Returned r => (Some r, log ++ [Fetch attempt])
      | Raised =>
          if attempt <? max_retries - 1
          then retry_loop max_retries t provider rest
                 (log ++ [Fetch attempt; Sleep config.RETRY_DELAY])
          else (None, log ++ [Fetch attempt])
      end
  end.

Definition get_fundamental_single (t : string)
    (provider : nat -> provider_response)
    : option fund_result * list event :=
  retry_loop config.MAX_RETRIES t provider (seq 0 config.MAX_RETRIES) [].

End Fundamentals.

(** ** The fundamentals table *)

(** A row of the DataFrame built from the result dicts.  The table has
    the seven columns below; a key that a dict lacks reads as NaN. *)
Module FundRow.

Record t : Type := {
  ticker : string;
  eps_growth : cell;
  revenue_growth : cell;
  per : cell;
  pbr : cell;
  roe : cell;
  has_recent_missing_data : bool
}.

End FundRow.

Definition or_nan (o : option cell) : cell :=
  match o with
  | Some c => c
  | None => Num NaN
  end.

(** One row of [pd.DataFrame(results)].  Every dict returned by
    [get_fundamental_single] carries the flag, so the default of the
    last field is never used on its results. *)
Definition to_row (r : fund_result) : FundRow.t :=
  {| FundRow.ticker := ticker r;
     FundRow.eps_growth := or_nan (eps_growth r);
     FundRow.revenue_growth := or_nan (revenue_growth r);
     FundRow.per := or_nan (per r);
     FundRow.pbr := or_nan (pbr r);
     FundRow.roe := or_nan (roe r);
     FundRow.has_recent_missing_data :=
       match has_recent_missing_data r with
       | Some b => b
       | None => true
       end |}.

Definition DataFrame (results : list fund_result) : list FundRow.t :=
  map to_row results.

(** [get_fundamentals_parallel]: [completed] lists the submitted tickers
    in the order in which their futures complete; tickers whose fetch
    returned [None] leave no row. *)
Definition get_fundamentals_parallel (sort_index : series -> series)
    (provider : string -> nat -> provider_response)
    (completed : list string) : list FundRow.t :=
  DataFrame
    (flat_map
       (fun t =>
          match fst (get_fundamental_single sort_index config.YEARS t
                       (provider t)) with
          | Some data => [data]
          | None => []
          end)
       completed).

(** ** calculate_scores *)

Record scored_row : Type := {
  base : FundRow.t;
  score_eps : Q;
  score_rev : Q;
  score_roe : Q;
  score_per : Q;
  score_pbr : Q;
  score_total : Q
}.

(** What [DataFrame.sort_values("score_total", ascending=False)] promises
    with the default sort kind: the same rows, by descending key.  The
    default kind is not a stable one, so the order of rows with equal
    key is the library's choice. *)
Definition sort_values_contract
    (sort_values : list scored_row -> list scored_row) : Prop :=
  forall l,
    Permutation (sort_values l) l /\
    StronglySorted (fun a b => (score_total b <= score_total a)%Q)
      (sort_values l).

Definition count_if {A : Type} (p : A -> bool) (l : list A) : nat :=
  length (filter p l).

Definition Qnat (n : nat) : Q := inject_Z (Z.of_nat n).

(** [Series.rank(pct=True, ascending=...)] at value [x] of a column
    without NaN: the average of the ranks of the values tied with [x],
    divided by the number of values. *)
Definition rank_pct (ascending : bool) (col : list float) (x : float) : Q :=
  let before :=
    count_if (fun y => if ascending then fltb y x else fltb x y) col in
  let tied := count_if (fun y => feqb y x) col in
  ((Qnat before + (Qnat tied + 1) / 2) / Qnat (length col))%Q.

(** The float held by a coerced cell. *)
Definition cell_float (c : cell) : float :=
  match c with
  | Num f => f
  | _ => NaN
  end.

Definition metrics (r : FundRow.t) : list cell :=
  [FundRow.eps_growth r; FundRow.revenue_growth r; FundRow.per r; FundRow.pbr r; FundRow.roe r].

(** The score column called [name] among five given columns; any other
    name would be a KeyError, and [config.WEIGHTS] has none. *)
Definition score_named (eps rev roe per pbr : Q) (name : string) : Q :=
  if (name =? "score_eps")%string then eps
  else if (name =? "score_rev")%string then rev
  else if (name =? "score_roe")%string then roe
  else if (name =? "score_per")%string then per
  else if (name =? "score_pbr")%string then pbr
  else 0%Q.

Definition weighted_sum (weights : list (string * Q)) (col : string -> Q)
    : Q :=
  fold_left (fun acc kw => (acc + col (fst kw) * snd kw)%Q) weights 0%Q.

Definition total_weight (weights : list (string * Q)) : Q :=
  fold_left Qplus (map snd weights) 0%Q.

Section Scores.
Variable parse_numeric : string -> float.
Variable sort_values : list scored_row -> list scored_row.

(** [pd.to_numeric(..., errors="coerce")] on one cell; [parse_numeric]
    reads a string, and is NaN on a string that is no number. *)
Definition to_numeric (c : cell) : float :=
  match c with
  | Num f => f
  | PyNone => NaN
  | Text s => parse_numeric s
  end.

Definition coerce (r : FundRow.t) : FundRow.t :=
  {| FundRow.ticker := FundRow.ticker r;
     FundRow.eps_growth := Num (to_numeric (FundRow.eps_growth r));
     FundRow.revenue_growth := Num (to_numeric (FundRow.revenue_growth r));
     FundRow.per := Num (to_numeric (FundRow.per r));
     FundRow.pbr := Num (to_numeric (FundRow.pbr r));
     FundRow.roe := Num (to_numeric (FundRow.roe r));
     FundRow.has_recent_missing_data := FundRow.has_recent_missing_data r |}.

(** First stage: [df[~df["has_recent_missing_data"]]]. *)
Definition drop_flagged (df : list FundRow.t) : list FundRow.t :=
  filter (fun r => negb (FundRow.has_recent_missing_data r)) df.

(** Second stage: [df.dropna(subset=cols)] after the coercion. *)
Definition drop_null (df : list FundRow.t) : list FundRow.t :=
  filter (fun r => negb (existsb isna (metrics r))) df.

Definition column (f : FundRow.t -> cell) (df : list FundRow.t) : list float :=
  map (fun r => cell_float (f r)) df.

Definition score_row (df : list FundRow.t) (r : FundRow.t) : scored_row :=
  let eps :=
    rank_pct true (column FundRow.eps_growth df) (cell_float (FundRow.eps_growth r)) in
  let rev :=
    rank_pct true (column FundRow.revenue_growth df)
      (cell_float (FundRow.revenue_growth r)) in
  let roe := rank_pct true (column FundRow.roe df) (cell_float (FundRow.roe r)) in
  let per := rank_pct false (column FundRow.per df) (cell_float (FundRow.per r)) in
  let pbr := rank_pct false (column FundRow.pbr df) (cell_float (FundRow.pbr r)) in
  {| base := r;
     score_eps := eps; score_rev := rev; score_roe := roe;
     score_per := per; score_pbr := pbr;
     score_total :=
       (weighted_sum config.WEIGHTS (score_named eps rev roe per pbr)
        / total_weight config.WEIGHTS)%Q |}.

Definition calculate_scores (df : list FundRow.t) : list scored_row :=
  let df := drop_flagged df in
  let df := map coerce df in
  let df := drop_null df in
  sort_values (map (score_row df) df).

End Scores.

(** ** Price data *)

(** A row of the price table; the columns [calculate_returns] never
    reads (Open, High, Low, Close, Volume, Dividends) are left out.
    [Date] is the row's index entry. *)
Record price_row : Type := {
  Date : date;
  SecuritiesCode : string;
  AdjClose : float;
  ExpectedDividend : float
}.

(** A row of [stock.history(...)]. *)
Record history_row : Type := {
  hist_date : date;
  hist_adj_close : float;
  hist_dividends : float
}.

Inductive history_response : Type :=
| HistoryRaises
| History (hist : list history_row).

(** [fillna(0)] on one value. *)
Definition fillna0 (x : float) : float :=
  if isnan x then Fin 0 else x.

(** [get_stock_data_single]: the provider is asked once; an exception
    anywhere in the body and an empty history both give [None]. *)
Definition get_stock_data_single (t : string)
    (provider : nat -> history_response)
    : option (list price_row) * list event :=
  match provider 0 with
  | HistoryRaises => (None, [Fetch 0])
  | History [] => (None, [Fetch 0])
  | History hist =>
      (Some
         (map
            (fun h =>
               {| Date := hist_date h;
                  SecuritiesCode := t;
                  AdjClose := hist_adj_close h;
                  ExpectedDividend := fillna0 (hist_dividends h) |})
            hist),
       [Fetch 0])
  end.

(** [get_stock_data_parallel]: the frames of the tickers that gave one,
    concatenated in completion order. *)
Definition get_stock_data_parallel
    (provider : string -> nat -> history_response)
    (completed : list string) : list price_row :=
  flat_map
    (fun t =>
       match fst (get_stock_data_single t (provider t)) with
       | Some res => res
       | None => []
       end)
    completed.

(** ** calculate_returns *)

(** [Series.unique()]: the distinct values by first appearance. *)
Fixpoint unique (l : list string) : list string :=
  match l with
  | [] => []
  | x :: xs => x :: filter (fun y => negb (y =? x)%string) (unique xs)
  end.

(** [d[k] = v] on a dict kept in insertion order. *)
Fixpoint dict_set (k : string) (v : float) (d : list (string * float))
    : list (string * float) :=
  match d with
  | [] => [(k, v)]
  | (k', v') :: rest =>
      if (k' =? k)%string then (k, v) :: rest
      else (k', v') :: dict_set k v rest
  end.

(** One record of the momentum table. *)
Record momentum_row : Type := {
  code_of : string;
  fields : list (string * float)
}.

Definition periods : list (string * nat) :=
  [("1day", 1); ("1month", 21); ("3month", 63); ("6month", 126)].

(** [df_price[df_price["SecuritiesCode"] == code]]. *)
Definition ticker_frame (df_price : list price_row) (code : string)
    : list price_row :=
  filter (fun r => (SecuritiesCode r =? code)%string) df_price.

(** [latest_date in df_t.index]. *)
Definition has_date (latest_date : date) (df_t : list price_row) : bool :=
  existsb (fun r => (Date r =? latest_date)%Z) df_t.

(** The body of [for name, days in periods.items()]. *)
Definition horizon_step (df_t : list price_row)
    (res : list (string * float)) (period : string * nat)
    : list (string * float) :=
  let (name, days) := period in
  if days <? length df_t then
    let prev_price := iloc_neg (map AdjClose df_t) (days + 1) in
    let curr_price := iloc_neg (map AdjClose df_t) 1 in
    let ret := fdiv (fsub curr_price prev_price) prev_price in
    let div_sum :=
      series_sum (iloc_tail (map ExpectedDividend df_t) (days + 1)) in
    let div_yield :=
      if fgtb prev_price (Fin 0) then fdiv div_sum prev_price else Fin 0 in
    dict_set ("momentum_score_" ++ name) (fadd ret div_yield)
      (dict_set ("return_" ++ name) ret res)
  else
    dict_set ("momentum_score_" ++ name) NaN
      (dict_set ("return_" ++ name) NaN res).

(** The body of [for code in tickers]. *)
Definition ticker_step (df_price : list price_row) (latest_date : date)
    (results : list momentum_row) (code : string) : list momentum_row :=
  let df_t := ticker_frame df_price code in
  match df_t with
  | [] => results
  | _ =>
      if negb (has_date latest_date df_t) then results
      else
        let res := fold_left (horizon_step df_t) periods [] in
        results ++ [ {| code_of := code; fields := res |} ]
  end.

Definition calculate_returns (df_price : list price_row)
    (latest_date : date) : list momentum_row :=
  let tickers := unique (map SecuritiesCode df_price) in
  fold_left (ticker_step df_price latest_date) tickers [].

(** [df[col]] on the momentum table at one record. *)
Definition field (r : momentum_row) (col : string) : option float :=
  lookup col (fields r).

(** ** Reference instances of the library sorts *)

Section InsertionSort.
Context {A : Type}.
Variable before : A -> A -> bool.

Fixpoint insert (x : A) (l : list A) : list A :=
  match l with
  | [] => [x]
  | y :: l' => if before x y then x :: l else y :: insert x l'
  end.

Definition insertion_sort (l : list A) : list A :=
  fold_right insert [] l.

End InsertionSort.

(** Ascending by index, equal indices in their incoming order. *)
Definition sort_index_stable : series -> series :=
  insertion_sort (fun a b => (fst a <=? fst b)%Z).

(** Descending by [score_total], equal totals in their incoming order. *)
Definition sort_values_stable : list scored_row -> list scored_row :=
  insertion_sort (fun a b => Qle_bool (score_total b) (score_total a)).

(** Descending by [score_total], equal totals in reverse incoming order. *)
Definition sort_values_reversing : list scored_row -> list scored_row :=
  insertion_sort (fun a b => Qltb (score_total b) (score_total a)).

(** ** Sample data *)

Module Sample.

(** A string column read by a reader that knows no number. *)
Definition parse_nothing (s : string) : float := NaN.

(** An EPS series, newest first, whose oldest value is negative. *)
Definition eps_from_loss : series :=
  [(2024%Z, Fin 3); (2023%Z, Fin 2); (2022%Z, Fin 1); (2021%Z, Fin (-2))].

(** Four statement years, the oldest one without figures. *)
Definition three_year_statement : statement :=
  {| index := [2024%Z; 2023%Z; 2022%Z; 2021%Z];
     columns :=
       [ ("Diluted EPS", [Fin 3; Fin 2; Fin 1; NaN]);
         ("Total Revenue", [Fin 300; Fin 200; Fin 100; NaN]) ] |}.

Definition snapshot : list (string * cell) :=
  [ ("trailingPE", Num (Fin 12)); ("priceToBook", Num (Fin 1));
    ("returnOnEquity", Num (Fin (1 # 10))) ].

Definition steady_provider (a : nat) : provider_response :=
  Responds (IncomeTable three_year_statement) (InfoDict snapshot).

(** Raises on the first two attempts, answers from the third on. *)
Definition flaky_provider (a : nat) : provider_response :=
  if a <? 2 then Raises else Responds IncomeNone InfoRaises.



Definition record (t : string) (eps rev p b r : Q) (flag : bool) : FundRow.t :=
  {| FundRow.ticker := t;
     FundRow.eps_growth := Num (Fin eps);
     FundRow.revenue_growth := Num (Fin rev);
     FundRow.per := Num (Fin p);
     FundRow.pbr := Num (Fin b);
     FundRow.roe := Num (Fin r);
     FundRow.has_recent_missing_data := flag |}.

Definition row_A : FundRow.t :=
  record "A" (1 # 2) (1 # 5) 10 1 (3 # 20) false.

Definition row_B : FundRow.t :=
  record "B" (1 # 10) (1 # 20) 20 2 (2 # 25) false.

Definition row_C : FundRow.t :=
  record "C" (3 # 10) (2 # 5) 15 (3 # 2) (1 # 5) false.

(** Flagged by the fetch layer. *)
Definition row_D : FundRow.t :=
  record "D" (9 # 10) (9 # 10) 5 (1 # 2) (1 # 2) true.

(** Flag clear, EPS growth null. *)
Definition row_E : FundRow.t :=
  {| FundRow.ticker := "E";
     FundRow.eps_growth := PyNone;
     FundRow.revenue_growth := Num (Fin (1 # 2));
     FundRow.per := Num (Fin 8);
     FundRow.pbr := Num (Fin 1);
     FundRow.roe := Num (Fin (1 # 4));
     FundRow.has_recent_missing_data := false |}.

Definition abc_table : list FundRow.t := [row_A; row_B; row_C].

Definition mixed_table : list FundRow.t := [row_D; row_A; row_E; row_B; row_C].

(** Two records with the same metrics, fetched as X then Y. *)
Definition tied_table : list FundRow.t :=
  [ record "X" (1 # 2) (1 # 5) 10 1 (3 # 20) false;
    record "Y" (1 # 2) (1 # 5) 10 1 (3 # 20) false ].

Definition abc_scored : list scored_row :=
  calculate_scores parse_nothing sort_values_stable abc_table.

Definition no_score : scored_row :=
  {| base := row_D; score_eps := 0; score_rev := 0; score_roe := 0;
     score_per := 0; score_pbr := 0; score_total := 0 |}.

Definition abc_top : scored_row := nth 0 abc_scored no_score.

Definition bar (t : string) (d : Z) (close dividend : Q) : price_row :=
  {| Date := d; SecuritiesCode := t; AdjClose := Fin close;
     ExpectedDividend := Fin dividend |}.

(** 22 trading days, adjusted close rising from 100 to 121, no dividend. *)
Definition rising_bars : list price_row :=
  map (fun i => bar "7203.T" (Z.of_nat i) (inject_Z (100 + Z.of_nat i)) 0)
    (seq 0 22).

(** Three bars that stop before the as-of date 21. *)
Definition stale_bars : list price_row :=
  [ bar "6758.T" 0 50 0; bar "6758.T" 1 51 0; bar "6758.T" 2 52 0 ].

(** One unit of dividend on every bar. *)
Definition paying_bars : list price_row :=
  [ bar "8306.T" 19 100 1; bar "8306.T" 20 110 1; bar "8306.T" 21 121 1 ].


Definition price_table : list price_row :=
  rising_bars ++ stale_bars ++ paying_bars.

End Sample.

(** ** The remaining functions of analyzer.py *)

(** Whether one of the attempts [0 .. n - 1] reaches the end of the
    attempt body instead of raising. *)
Definition answers_within (n : nat) (provider : nat -> provider_response)
    : bool :=
  existsb
    (fun a => match provider a with Raises => false | Responds _ _ => true end)
    (seq 0 n).

(** [get_stock_data_bulk]: the bulk download and its reshaping either
    go through or raise; both paths end in the same parallel fetch, and
    what was downloaded is not used. *)
Definition get_stock_data_bulk (download_raises : bool)
    (provider : string -> nat -> history_response)
    (completed : list string) : list price_row :=
  if download_raises
  then get_stock_data_parallel provider completed
  else get_stock_data_parallel provider completed.








(** ** More sample data *)

Module Demo.

Definition no_record : momentum_row := {| code_of := ""; fields := [] |}.

(** The first record of the momentum table of the sample prices. *)
Definition first_record : momentum_row :=
  nth 0 (calculate_returns Sample.price_table 21%Z) no_record.

(** The records ranked second and third in the three-record table. *)
Definition abc_second : scored_row := nth 1 Sample.abc_scored Sample.no_score.

Definition abc_third : scored_row := nth 2 Sample.abc_scored Sample.no_score.

(** One ticker with two days of history, one whose fetch raises. *)
Definition price_provider (t : string) (a : nat) : history_response :=
  if (t =? "7203.T")%string
  then History [ {| hist_date := 20%Z; hist_adj_close := Fin 100;
                    hist_dividends := NaN |};
                 {| hist_date := 21%Z; hist_adj_close := Fin 101;
                    hist_dividends := Fin 5 |} ]
  else HistoryRaises.

End Demo.


(** ** Exceptions and strings *)

Inductive exn : Type :=
| ValueError
| IndexError
| KeyError
| NameError
| RuntimeError
| FileNotFoundError
| OtherError.

Inductive result (A : Type) : Type :=
| Ok (a : A)
| Raise (e : exn).

Arguments Ok {A} a.
Arguments Raise {A} e.

Fixpoint starts_with (p s : string) : bool :=
  match p, s with
  | EmptyString, _ => true
  | String _ _, EmptyString => false
  | String a p', String b s' => Ascii.eqb a b && starts_with p' s'
  end.

(** Python's [needle in hay] on strings. *)
Fixpoint contains (needle hay : string) : bool :=
  starts_with needle hay
  || match hay with
     | EmptyString => false
     | String _ rest => contains needle rest
     end.

(** [s.replace(old, new)] for a non-empty [old]: the occurrences are
    taken from the left and do not overlap; [skip] counts the characters
    of an occurrence still to be passed over. *)
Fixpoint replace_from (old new : string) (skip : nat) (s : string) : string :=
  match s with
  | EmptyString => EmptyString
  | String c rest =>
      match skip with
      | S k => replace_from old new k rest
      | O =>
          if starts_with old s
          then new ++ replace_from old new (String.length old - 1) rest
          else String c (replace_from old new 0 rest)
      end
  end.

Definition replace (old new s : string) : string := replace_from old new 0 s.

(** [str(z)] for an integer. *)
Definition decimal (z : Z) : string := NilZero.string_of_int (Z.to_int z).

(** ** data_manager.py: the link to the listing *)

(** What the request for the JPX page gives: an exception (from the
    request or from [raise_for_status]), or the anchors that carry an
    [href], in document order, each as (stripped text, href). *)
Inductive page_response : Type :=
| PageRaises
| Page (anchors : list (string * string)).

Definition listing_title : string := "東証上場銘柄一覧".

Section ExcelUrl.
(** [urllib.parse.urljoin]. *)
Variable urljoin : string -> string -> string.

(** The first loop of [_get_excel_url]: the URL it returns from inside
    the loop, or the candidates collected when it runs to its end. *)
Fixpoint scan_anchors (anchors candidates : list (string * string))
    : string + list (string * string) :=
  match anchors with
  | [] => inr candidates
  | (text, href) :: rest =>
      if contains "xls" href || contains "xlsx" href then
        let candidates := candidates ++ [(text, href)] in
        if contains listing_title text
        then inl (urljoin config.JPX_BASE_URL href)
        else scan_anchors rest candidates
      else scan_anchors rest candidates
  end.

(** The fallback loop over the candidates. *)
Fixpoint scan_candidates (candidates : list (string * string))
    : result string :=
  match candidates with
  | [] => Raise ValueError
  | (t, h) :: rest =>
      if contains "data_j.xls" h
      then Ok (urljoin config.JPX_BASE_URL h)
      else scan_candidates rest
  end.

Definition _get_excel_url (page : page_response) : result string :=
  match page with
  | PageRaises => Raise OtherError
  | Page anchors =>
      match scan_anchors anchors [] with
      | inl url => Ok url
      | inr candidates => scan_candidates candidates
      end
  end.

End ExcelUrl.


(** ** data_manager.py: the TOPIX 100 codes *)

(** A cell of the sheet as [read_excel] delivers it: text, an integer,
    or a float (NaN for an empty cell). *)
Inductive xcell : Type :=
| XStr (s : string)
| XInt (z : Z)
| XFloat (f : float).

(** The sheet: the column labels and the rows below them, each row as
    long as the labels. *)
Record xframe : Type := {
  labels : list xcell;
  body : list (list xcell)
}.

Definition code_col : string := "コード".

Definition size_col : string := "規模区分".

Definition empty_cell : xcell := XFloat NaN.

(** The place of the first label equal to [name]. *)
Fixpoint position (name : string) (columns : list string) : option nat :=
  match columns with
  | [] => None
  | c :: rest =>
      if (c =? name)%string then Some 0
      else option_map S (position name rest)
  end.

(** [name in df.columns]. *)
Definition label_is (name : string) (c : xcell) : bool :=
  match c with
  | XStr s => (s =? name)%string
  | _ => false
  end.

Section Extract.
(** [str(x)] for a float, [s.strip()], and [int(s)] for a string, which
    is [None] where Python raises. *)
Variable float_str : float -> string.
Variable strip : string -> string.
Variable int_of_str : string -> option Z.

Definition py_str (c : xcell) : string :=
  match c with
  | XStr s => s
  | XInt z => decimal z
  | XFloat f => float_str f
  end.

(** [int(code)]: a float is cut towards zero, NaN and the infinities
    raise. *)
Definition py_int (c : xcell) : option Z :=
  match c with
  | XInt z => Some z
  | XFloat (Fin q) => Some (Z.quot (Qnum q) (Z.pos (Qden q)))
  | XFloat _ => None
  | XStr s => int_of_str s
  end.

Definition is_header_row (row : list xcell) : bool :=
  existsb (fun v => (v =? code_col)%string) (map py_str row)
  && existsb (fun v => (v =? size_col)%string) (map py_str row).

(** [for i in range(steps)] from row [i] on: [df.iloc[i]] raises
    IndexError past the last row. *)
Fixpoint find_header (rows : list (list xcell)) (i steps : nat)
    : result (option nat) :=
  match steps with
  | O => Ok None
  | S steps' =>
      match rows with
      | [] => Raise IndexError
      | row :: rest =>
          if is_header_row row then Ok (Some i)
          else find_header rest (S i) steps'
      end
  end.

Definition in_topix100 (size : string) : bool :=
  contains "Core30" size || contains "Large70" size.

(** [_extract_topix100], for a sheet in which neither of the two labels
    occurs twice among the labels in force (pandas selects a sub-table
    instead of a column otherwise). *)
Definition _extract_topix100 (df : xframe) : result (list string) :=
  match find_header (body df) 0 10 with
  | Raise e => Raise e
  | Ok header_row =>
      let target :=
        match header_row with
        | None =>
            if existsb (label_is code_col) (labels df)
               && existsb (label_is size_col) (labels df)
            then Ok (labels df, body df)
            else Raise ValueError
        | Some i => Ok (nth i (body df) [], skipn (i + 1) (body df))
        end in
      match target with
      | Raise e => Raise e
      | Ok (cols, rows) =>
          let columns := map (fun c => strip (py_str c)) cols in
          match position code_col columns, position size_col columns with
          | Some pc, Some ps =>
              let filtered :=
                filter
                  (fun row => in_topix100 (py_str (nth ps row empty_cell)))
                  rows in
              Ok (flat_map
                    (fun row =>
                       match py_int (nth pc row empty_cell) with
                       | Some z => [(decimal z ++ ".T")%string]
                       | None => []
                       end)
                    filtered)
          | _, _ => Raise ValueError
          end
      end
  end.

End Extract.


(** ** data_manager.py: the ticker file *)

(** The ticker file as the program sees it: its modification time, in
    seconds, and the [ticker] column that [read_csv] finds in it. *)
Record ticker_file : Type := {
  mtime : Z;
  stored : list string
}.

(** [_should_update] at time [now], in seconds. *)
Definition _should_update (now : Z) (file : option ticker_file) : bool :=
  match file with
  | None => true
  | Some f =>
      (now - mtime f >? config.TICKER_UPDATE_INTERVAL_DAYS * 86400)%Z
  end.

(** [pd.read_csv(self.tickers_file)["ticker"].tolist()]. *)
Definition read_tickers (file : option ticker_file) : result (list string) :=
  match file with
  | Some f => Ok (stored f)
  | None => Raise FileNotFoundError
  end.

Section Manager.
Variable float_str : float -> string.
Variable strip : string -> string.
Variable int_of_str : string -> option Z.
Variable urljoin : string -> string -> string.
(** [pd.read_excel] on a URL. *)
Variable read_excel : string -> result xframe.

(** [update_tickers] at time [now]: what it raises, if anything, and
    the ticker file afterwards. *)
Definition update_tickers (now : Z) (page : page_response)
    (file : option ticker_file) : result unit * option ticker_file :=
  match _get_excel_url urljoin page with
  | Raise e => (Raise e, file)
  | Ok excel_url =>
      match read_excel excel_url with
      | Raise e => (Raise e, file)
      | Ok df =>
          match _extract_topix100 float_str strip int_of_str df with
          | Raise e => (Raise e, file)
          | Ok [] => (Raise ValueError, file)
          | Ok topix100_tickers =>
              (Ok tt, Some {| mtime := now; stored := topix100_tickers |})
          end
      end
  end.

Definition load_tickers (now : Z) (page : page_response)
    (file : option ticker_file)
    : result (list string) * option ticker_file :=
  if _should_update now file then
    match update_tickers now page file with
    | (Ok _, file') => (read_tickers file', file')
    | (Raise _, file') =>
        match file' with
        | Some _ => (read_tickers file', file')
        | None => (Raise RuntimeError, file')
        end
    end
  else (read_tickers file, file).

End Manager.


(** ** visualizer.py: the rows of the report *)

(** [pd.merge(df_scores, df_returns, on="code", how="left")]: the scored
    records in their order, each with every momentum record of its code,
    or with none. *)
Definition merge_left (df_scores : list scored_row)
    (df_returns : list momentum_row)
    : list (scored_row * option momentum_row) :=
  flat_map
    (fun s =>
       match
         filter (fun m => (code_of m =? FundRow.ticker (base s))%string)
           df_returns
       with
       | [] => [(s, None)]
       | ms => map (fun m => (s, Some m)) ms
       end)
    df_scores.

(** [row.get(col, np.nan)] on a merged row, for a momentum column. *)
Definition row_get (momentum : option momentum_row) (col : string) : float :=
  match momentum with
  | Some m =>
      match field m col with
      | Some v => v
      | None => NaN
      end
  | None => NaN
  end.

(** One row of the report's table: the cells that depend on the data. *)
Record report_line : Type := {
  line_rank : nat;
  line_code : string;
  line_score : string;
  line_metrics : list string;
  line_preds : list (string * string);
  line_url : string
}.

Section Report.
(** The renderings [f"{x:.2%}"] and [f"{x:.2f}"]. *)
Variable format_percent : float -> string.
Variable format_fixed : float -> string.

Definition format_pred (val : float) : string * string :=
  if isnan val then ("-", "neutral")
  else (format_percent val,
        if fgtb val (Fin 0) then "positive" else "negative").

(** A metric cell: ["-"] for a null. *)
Definition format_cell (format : float -> string) (c : cell) : string :=
  if isna c then "-" else format (cell_float c).

Definition report_row (i : nat) (row : scored_row * option momentum_row)
    : report_line :=
  let (s, momentum) := row in
  let code_str := replace ".T" "" (FundRow.ticker (base s)) in
  {| line_rank := i + 1;
     line_code := FundRow.ticker (base s);
     line_score := format_fixed (Fin (score_total s));
     line_metrics :=
       [ format_cell format_percent (FundRow.eps_growth (base s));
         format_cell format_percent (FundRow.revenue_growth (base s));
         format_cell format_fixed (FundRow.per (base s));
         format_cell format_fixed (FundRow.pbr (base s));
         format_cell format_fixed (FundRow.roe (base s)) ];
     line_preds :=
       [ format_pred (row_get momentum "momentum_score_1day");
         format_pred (row_get momentum "momentum_score_1month");
         format_pred (row_get momentum "momentum_score_3month");
         format_pred (row_get momentum "momentum_score_6month") ];
     line_url := ("https://minkabu.jp/stock/" ++ code_str)%string |}.

(** Rows [i], [i + 1], ... of the merged table. *)
Fixpoint report_rows (i : nat)
    (merged : list (scored_row * option momentum_row)) : list report_line :=
  match merged with
  | [] => []
  | row :: rest => report_row i row :: report_rows (S i) rest
  end.

(** [generate_html_report]: the table rows it writes, or the KeyError of
    the merge when the momentum table has no row and so no [code]
    column. *)
Definition generate_html_report (df_scores : list scored_row)
    (df_returns : list momentum_row) (top_n : nat)
    : result (list report_line) :=
  match df_returns with
  | [] => Raise KeyError
  | _ => Ok (report_rows 0 (firstn top_n (merge_left df_scores df_returns)))
  end.

End Report.

(** ** main.py *)

(** [df_price.index.max()] for a table with at least one row. *)
Definition index_max (df_price : list price_row) : date :=
  match map Date df_price with
  | [] => 0%Z
  | d :: ds => fold_left Z.max ds d
  end.

(** The list [results] inside [get_fundamentals_parallel]. *)
Definition fetched_results (sort_index : series -> series)
    (provider : string -> nat -> provider_response)
    (completed : list string) : list fund_result :=
  flat_map
    (fun t =>
       match fst (get_fundamental_single sort_index config.YEARS t
                    (provider t)) with
       | Some data => [data]
       | None => []
       end)
    completed.

Definition is_some {A : Type} (o : option A) : bool :=
  match o with Some _ => true | None => false end.

(** Whether the frame built from [results] has the five metric columns:
    a column exists when some dict has its key. *)
Definition has_metric_columns (results : list fund_result) : bool :=
  existsb (fun r => is_some (eps_growth r)) results
  && existsb (fun r => is_some (revenue_growth r)) results
  && existsb (fun r => is_some (per r)) results
  && existsb (fun r => is_some (pbr r)) results
  && existsb (fun r => is_some (roe r)) results.

Inductive run : Type :=
| Exit (status : nat)
| Crashed (e : exn)
| Finished (df_scores : list scored_row) (df_returns : list momentum_row)
    (report : list report_line).

Section Main.
Variable parse_numeric : string -> float.
Variable sort_index : series -> series.
Variable sort_values : list scored_row -> list scored_row.
Variable format_percent : float -> string.
Variable format_fixed : float -> string.
(** The order in which the futures of a parallel run complete. *)
Variable finished : list string -> list string.

(** [main], given what [load_tickers] did and what the providers do.
    [calculate_scores] meets a KeyError when a metric column is missing
    from the frame; the branch for an empty price table uses [pd], which
    main.py does not import. *)
Definition main (loaded : result (list string))
    (fund_provider : string -> nat -> provider_response)
    (download_raises : bool)
    (price_provider : string -> nat -> history_response) : run :=
  match loaded with
  | Raise _ => Exit 1
  | Ok tickers =>
      let results := fetched_results sort_index fund_provider
                       (finished tickers) in
      match results with
      | [] => Exit 1
      | _ =>
          if negb (has_metric_columns results) then Crashed KeyError
          else
            let df_scores :=
              calculate_scores parse_numeric sort_values (DataFrame results) in
            let top_20_tickers :=
              firstn 20 (map (fun s => FundRow.ticker (base s)) df_scores) in
            let df_price :=
              get_stock_data_bulk download_raises price_provider
                (finished top_20_tickers) in
            match df_price with
            | [] => Crashed NameError
            | _ =>
                let latest_date := index_max df_price in
                let df_returns := calculate_returns df_price latest_date in
                match
                  generate_html_report format_percent format_fixed
                    df_scores df_returns 20
                with
                | Ok report => Finished df_scores df_returns report
                | Raise e => Crashed e
                end
            end
      end
  end.

End Main.


(** * Properties *)

(** ** Comparisons on rationals and floats *)

Lemma Qltb_lt (a b : Q) : Qltb a b = true <-> (a < b)%Q.
Proof.
  unfold Qltb. rewrite negb_true_iff.
  destruct (Qle_bool b a) eqn:E.
  - apply Qle_bool_iff in E. split; [discriminate | intro H].
    exfalso. apply (Qlt_not_le _ _ H E).
  - split; [intros _ | reflexivity].
    apply Qnot_le_lt. intro H. apply Qle_bool_iff in H. congruence.
Qed.

Lemma Qltb_ge (a b : Q) : Qltb a b = false <-> (b <= a)%Q.
Proof.
  unfold Qltb. rewrite negb_false_iff. apply Qle_bool_iff.
Qed.

Lemma Qeq_bool_false (a b : Q) : Qeq_bool a b = false <-> ~ (a == b)%Q.
Proof.
  split.
  - intros E H. apply Qeq_bool_iff in H. congruence.
  - intro H. destruct (Qeq_bool a b) eqn:E; [|reflexivity].
    apply Qeq_bool_iff in E. contradiction.
Qed.

(** ** The reference sorts meet the library contracts *)

Section InsertionSortFacts.
Context {A : Type}.
Variable before : A -> A -> bool.
Variable R : A -> A -> Prop.
Hypothesis before_true : forall x y, before x y = true -> R x y.
Hypothesis before_false : forall x y, before x y = false -> R y x.
Hypothesis R_trans : forall x y z, R x y -> R y z -> R x z.

Lemma insert_perm (x : A) (l : list A) :
  Permutation (insert before x l) (x :: l).
Proof.
  induction l as [|y l IH]; simpl.
  - apply Permutation_refl.
  - destruct (before x y).
    + apply Permutation_refl.
    + eapply perm_trans; [apply perm_skip, IH | apply perm_swap].
Qed.

Lemma insertion_sort_perm (l : list A) :
  Permutation (insertion_sort before l) l.
Proof.
  induction l as [|x l IH]; simpl.
  - apply perm_nil.
  - eapply perm_trans; [apply insert_perm | apply perm_skip, IH].
Qed.

Lemma insert_sorted (x : A) (l : list A) :
  StronglySorted R l -> StronglySorted R (insert before x l).
Proof.
  induction 1 as [|y l Hs IH Hy]; simpl.
  - constructor; [constructor | constructor].
  - destruct (before x y) eqn:E.
    + constructor.
      * constructor; assumption.
      * constructor; [auto|].
        rewrite Forall_forall in *. intros z Hz.
        eapply R_trans; [apply before_true, E | apply Hy, Hz].
    + constructor; [exact IH|].
      rewrite Forall_forall in *. intros z Hz.
      apply (Permutation_in _ (insert_perm x l)) in Hz.
      destruct Hz as [<-|Hz]; [apply before_false, E | apply Hy, Hz].
Qed.

Lemma insertion_sort_sorted (l : list A) :
  StronglySorted R (insertion_sort before l).
Proof.
  induction l as [|x l IH]; simpl.
  - constructor.
  - apply insert_sorted, IH.
Qed.

End InsertionSortFacts.

Lemma sort_index_stable_contract : sort_index_contract sort_index_stable.
Proof.
  intro s. split.
  - apply insertion_sort_perm.
  - apply insertion_sort_sorted.
    + intros x y H. apply Z.leb_le, H.
    + intros x y H. apply Z.leb_gt in H. lia.
    + intros x y z H1 H2. lia.
Qed.

Lemma sort_values_stable_contract : sort_values_contract sort_values_stable.
Proof.
  intro l. split.
  - apply insertion_sort_perm.
  - apply insertion_sort_sorted.
    + intros x y H. apply Qle_bool_iff, H.
    + intros x y H. apply Qlt_le_weak, Qltb_lt.
      unfold Qltb. rewrite H. reflexivity.
    + intros x y z H1 H2. eapply Qle_trans; eassumption.
Qed.

Lemma sort_values_reversing_contract :
  sort_values_contract sort_values_reversing.
Proof.
  intro l. split.
  - apply insertion_sort_perm.
  - apply insertion_sort_sorted.
    + intros x y H. apply Qlt_le_weak, Qltb_lt, H.
    + intros x y H. apply Qltb_ge, H.
    + intros x y z H1 H2. eapply Qle_trans; eassumption.
Qed.

(** ** calculate_change_rate *)

Lemma sorted_last_bound {A : Type} (R : A -> A -> Prop) (d : A) (l : list A) :
  StronglySorted R l ->
  forall x, In x l ->
    x = nth (length l - 1) l d \/ R x (nth (length l - 1) l d).
Proof.
  induction 1 as [|y l Hs IH Hy]; intros x Hx; [destruct Hx|].
  destruct l as [|z l'].
  - destruct Hx as [<-|[]]. left. reflexivity.
  - assert (E : nth (length (y :: z :: l') - 1) (y :: z :: l') d
                = nth (length (z :: l') - 1) (z :: l') d).
    { simpl. rewrite Nat.sub_0_r. reflexivity. }
    rewrite E. destruct Hx as [<-|Hx].
    + right. rewrite Forall_forall in Hy. apply Hy.
      apply nth_In. simpl. lia.
    + apply IH, Hx.
Qed.

Lemma observed_length (sort_index : series -> series) (s : series) :
  sort_index_contract sort_index ->
  length (values (sort_index (dropna s))) = length (dropna s).
Proof.
  intro H. unfold values. rewrite length_map.
  apply Permutation_length, H.
Qed.

Lemma Qabs_nonzero (p : Q) : ~ (p == 0)%Q -> (0 < Qabs p)%Q.
Proof.
  intro H. destruct (Qlt_le_dec 0 (Qabs p)) as [L|L]; [exact L|].
  exfalso. apply H. apply Qabs_Qle_condition in L. lra.
Qed.

Lemma Qmult_pos_sign (d q : Q) :
  (0 < q -> (0 < d * q <-> 0 < d) /\ (d * q < 0 <-> d < 0))%Q.
Proof.
  intro Hq. split; split; intro K.
  - destruct (Qlt_le_dec 0 d) as [L|L]; [exact L|].
    assert (0 <= (- d) * q)%Q by (apply Qmult_le_0_compat; lra). lra.
  - apply Qmult_lt_0_compat; assumption.
  - destruct (Qlt_le_dec d 0) as [L|L]; [exact L|].
    assert (0 <= d * q)%Q by (apply Qmult_le_0_compat; lra). lra.
  - assert (0 < (- d) * q)%Q by (apply Qmult_lt_0_compat; lra). lra.
Qed.

Lemma rate_sign (l p : Q) :
  ~ (p == 0)%Q ->
  ((0 < (l - p) / Qabs p <-> p < l) /\ ((l - p) / Qabs p < 0 <-> l < p))%Q.
Proof.
  intro H. pose proof (Qabs_nonzero p H) as Hp.
  pose proof (Qinv_lt_0_compat _ Hp) as Hi.
  unfold Qdiv. destruct (Qmult_pos_sign (l - p) _ Hi) as [A B].
  split; [rewrite A | rewrite B]; split; intro; lra.
Qed.

(** C2.  [calculate_change_rate]: with fewer than [years + 1] non-null
    observations the result is [None]; when the observation at position
    [-(years + 1)] of the date-sorted series ([past]) equals zero the
    result is [None]; otherwise it is [(latest - past) / abs(past)],
    where [latest] is the observation with the greatest date.  For finite
    values the rate has the sign of [latest - past], whatever the sign of
    [past]. *)
Theorem C2_change_rate (sort_index : series -> series) (s : series)
    (years : nat) :
  sort_index_contract sort_index ->
  let observed := sort_index (dropna s) in
  let past := iloc_neg (values observed) (years + 1) in
  let latest := iloc_neg (values observed) 1 in
  let rate := calculate_change_rate sort_index s years in
  (length (dropna s) < years + 1 -> rate = None) /\
  (years + 1 <= length (dropna s) ->
     (feqb past (Fin 0) = true -> rate = None) /\
     (feqb past (Fin 0) = false ->
        rate = Some (fdiv (fsub latest past) (fabs past))) /\
     (exists d, In (d, latest) (dropna s) /\
        forall d' v, In (d', v) (dropna s) -> (d' <= d)%Z)) /\
  (forall p l : Q,
     years + 1 <= length (dropna s) ->
     past = Fin p -> latest = Fin l -> ~ (p == 0)%Q ->
     exists r, rate = Some (Fin r) /\
       (r == (l - p) / Qabs p)%Q /\
       ((0 < r)%Q <-> (p < l)%Q) /\ ((r < 0)%Q <-> (l < p)%Q)).
Proof.
  intros Hc observed past latest rate.
  pose proof (observed_length sort_index s Hc) as Hlen.
  fold observed in Hlen.
  assert (Hrate : rate =
            if length (values observed) <? years + 1 then None
            else if feqb past (Fin 0) then None
                 else Some (fdiv (fsub latest past) (fabs past)))
    by reflexivity.
  rewrite Hlen in Hrate.
  split; [|split].
  - intro Hshort. rewrite Hrate.
    apply Nat.ltb_lt in Hshort. rewrite Hshort. reflexivity.
  - intro Hlong. assert (E : (length (dropna s) <? years + 1) = false)
      by (apply Nat.ltb_ge; exact Hlong).
    rewrite E in Hrate. split; [|split].
    + intro Hz. rewrite Hrate, Hz. reflexivity.
    + intro Hz. rewrite Hrate, Hz. reflexivity.
    + destruct (Hc (dropna s)) as [Hperm Hsorted].
      fold observed in Hperm, Hsorted.
      assert (Hne : 0 < length observed).
      { rewrite (Permutation_length Hperm). lia. }
      set (final := nth (length observed - 1) observed (0%Z, NaN)).
      assert (Hfin : In final observed) by (apply nth_In; lia).
      assert (Hval : latest = snd final).
      { unfold latest, iloc_neg, values, final.
        rewrite length_map.
        change NaN with (snd (0%Z, NaN)). apply map_nth. }
      exists (fst final). split.
      * rewrite Hval, <- surjective_pairing.
        apply (Permutation_in _ Hperm), Hfin.
      * intros d' v Hin.
        apply (Permutation_in _ (Permutation_sym Hperm)) in Hin.
        destruct (sorted_last_bound _ (0%Z, NaN) _ Hsorted _ Hin) as [E'|L].
        -- apply Z.eq_le_incl. change d' with (fst (d', v)).
           f_equal. exact E'.
        -- exact L.
  - intros p l Hlong Hp Hl Hnz.
    assert (E : (length (dropna s) <? years + 1) = false)
      by (apply Nat.ltb_ge; exact Hlong).
    rewrite E, Hp, Hl in Hrate. simpl in Hrate.
    apply Qeq_bool_false in Hnz. rewrite Hnz in Hrate.
    assert (Ha : Qeq_bool (Qabs p) 0 = false).
    { apply Qeq_bool_false. intro K.
      apply Qeq_bool_false in Hnz.
      pose proof (Qabs_nonzero p Hnz). lra. }
    rewrite Ha in Hrate.
    exists ((l + - p) / Qabs p)%Q. split; [exact Hrate|].
    apply Qeq_bool_false in Hnz.
    destruct (rate_sign l p Hnz) as [A B].
    split; [reflexivity|]. split; [exact A | exact B].
Qed.

(** ** calculate_returns: the loop over tickers *)

Lemma unique_In (l : list string) (x : string) : In x (unique l) <-> In x l.
Proof.
  induction l as [|y l IH]; simpl; [tauto|].
  rewrite filter_In, IH, negb_true_iff, String.eqb_neq.
  destruct (string_dec y x) as [->|N]; [tauto|].
  split; [tauto|]. intros [E|H]; [contradiction|]. right. split; [exact H|].
  intro E. apply N. symmetry. exact E.
Qed.

Lemma unique_NoDup (l : list string) : NoDup (unique l).
Proof.
  induction l as [|y l IH]; simpl; constructor.
  - rewrite filter_In, negb_true_iff, String.eqb_neq. tauto.
  - apply NoDup_filter, IH.
Qed.

(** The records one ticker contributes: none or one. *)
Lemma ticker_step_app (df_price : list price_row) (latest_date : date)
    (results : list momentum_row) (code : string) :
  ticker_step df_price latest_date results code
  = results ++ ticker_step df_price latest_date [] code.
Proof.
  unfold ticker_step.
  destruct (ticker_frame df_price code); [symmetry; apply app_nil_r|].
  destruct (negb _); [symmetry; apply app_nil_r | reflexivity].
Qed.

Lemma ticker_loop_flat_map (df_price : list price_row) (latest_date : date)
    (tickers : list string) (results : list momentum_row) :
  fold_left (ticker_step df_price latest_date) tickers results
  = results ++ flat_map (ticker_step df_price latest_date []) tickers.
Proof.
  revert results. induction tickers as [|c tickers IH]; intro results; simpl.
  - symmetry. apply app_nil_r.
  - rewrite IH, ticker_step_app, <- app_assoc. reflexivity.
Qed.

Lemma ticker_step_code (df_price : list price_row) (latest_date : date)
    (code : string) (r : momentum_row) :
  In r (ticker_step df_price latest_date [] code) -> code_of r = code.
Proof.
  unfold ticker_step.
  destruct (ticker_frame df_price code); [intros []|].
  destruct (negb _); [intros []|].
  intros [<-|[]]. reflexivity.
Qed.

Lemma ticker_step_present (df_price : list price_row) (latest_date : date)
    (code : string) :
  has_date latest_date (ticker_frame df_price code) = true ->
  ticker_step df_price latest_date [] code
  = [ {| code_of := code;
         fields :=
           fold_left (horizon_step (ticker_frame df_price code))
             periods [] |} ].
Proof.
  intro H. unfold ticker_step.
  destruct (ticker_frame df_price code) eqn:E; [discriminate H|].
  rewrite H. reflexivity.
Qed.

Lemma ticker_step_absent (df_price : list price_row) (latest_date : date)
    (code : string) :
  has_date latest_date (ticker_frame df_price code) = false ->
  ticker_step df_price latest_date [] code = [].
Proof.
  intro H. unfold ticker_step.
  destruct (ticker_frame df_price code); [reflexivity|].
  rewrite H. reflexivity.
Qed.

Lemma has_date_in_table (df_price : list price_row) (latest_date : date)
    (code : string) :
  has_date latest_date (ticker_frame df_price code) = true ->
  In code (map SecuritiesCode df_price).
Proof.
  unfold has_date. rewrite existsb_exists. intros [r [Hr _]].
  unfold ticker_frame in Hr. apply filter_In in Hr. destruct Hr as [Hr E].
  apply String.eqb_eq in E. rewrite <- E. apply in_map, Hr.
Qed.

Lemma filter_none {A : Type} (p : A -> bool) (l : list A) :
  (forall x, In x l -> p x = false) -> filter p l = [].
Proof.
  induction l as [|x l IH]; intro H; simpl; [reflexivity|].
  rewrite (H x (or_introl eq_refl)). apply IH.
  intros y Hy. apply H. right. exact Hy.
Qed.

Lemma records_of_absent_code (f : string -> list momentum_row)
    (code : string) (l : list string) :
  (forall c r, In r (f c) -> code_of r = c) ->
  ~ In code l ->
  filter (fun r => (code_of r =? code)%string) (flat_map f l) = [].
Proof.
  intros Hf Hnot. apply filter_none. intros r Hr.
  apply in_flat_map in Hr. destruct Hr as [c [Hc Hr]].
  apply String.eqb_neq. intro E. apply Hnot.
  rewrite <- E, (Hf c r Hr). exact Hc.
Qed.

Lemma records_of_code (f : string -> list momentum_row) (code : string)
    (l : list string) :
  (forall c r, In r (f c) -> code_of r = c) ->
  NoDup l -> In code l ->
  filter (fun r => (code_of r =? code)%string) (flat_map f l) = f code.
Proof.
  intros Hf Hnd. induction Hnd as [|c l Hc Hnd IH]; intro Hin; [destruct Hin|].
  simpl. rewrite filter_app.
  destruct (string_dec c code) as [->|N].
  - rewrite (records_of_absent_code f code l Hf Hc), app_nil_r.
    apply forallb_filter_id, forallb_forall.
    intros r Hr. apply String.eqb_eq, (Hf code r Hr).
  - destruct Hin as [E|Hin]; [contradiction|].
    rewrite (IH Hin).
    rewrite filter_none; [reflexivity|].
    intros r Hr. apply String.eqb_neq. rewrite (Hf c r Hr). exact N.
Qed.

(** The records of the momentum table that carry a given code. *)
Lemma calculate_returns_of_code (df_price : list price_row)
    (latest_date : date) (code : string) :
  In code (map SecuritiesCode df_price) ->
  filter (fun r => (code_of r =? code)%string)
    (calculate_returns df_price latest_date)
  = ticker_step df_price latest_date [] code.
Proof.
  intro Hin. unfold calculate_returns.
  rewrite ticker_loop_flat_map. simpl.
  apply records_of_code.
  - intros c r. apply ticker_step_code.
  - apply unique_NoDup.
  - apply unique_In, Hin.
Qed.

Lemma calculate_returns_In (df_price : list price_row) (latest_date : date)
    (r : momentum_row) :
  In r (calculate_returns df_price latest_date) <->
  exists code, In code (map SecuritiesCode df_price) /\
    In r (ticker_step df_price latest_date [] code).
Proof.
  unfold calculate_returns. rewrite ticker_loop_flat_map. simpl.
  rewrite in_flat_map. split; intros [c [Hc Hr]]; exists c; split;
    try exact Hr; apply unique_In; exact Hc.
Qed.

(** ** calculate_returns: the loop over horizons *)

Lemma horizon_fields (df_t : list price_row) (name : string) (days : nat) :
  In (name, days) periods ->
  let res := fold_left (horizon_step df_t) periods [] in
  let closes := map AdjClose df_t in
  let divs := map ExpectedDividend df_t in
  let prev_price := iloc_neg closes (days + 1) in
  let ret := fdiv (fsub (iloc_neg closes 1) prev_price) prev_price in
  let div_yield :=
    if fgtb prev_price (Fin 0)
    then fdiv (series_sum (iloc_tail divs (days + 1))) prev_price
    else Fin 0 in
  (days + 1 <= length df_t ->
     lookup ("return_" ++ name) res = Some ret /\
     lookup ("momentum_score_" ++ name) res = Some (fadd ret div_yield)) /\
  (length df_t < days + 1 ->
     lookup ("return_" ++ name) res = Some NaN /\
     lookup ("momentum_score_" ++ name) res = Some NaN).
Proof.
  intros Hin res closes divs prev_price ret div_yield.
  unfold res, periods, fold_left, horizon_step.
  fold closes divs.
  destruct (1 <? length df_t) eqn:E1;
    destruct (21 <? length df_t) eqn:E21;
    destruct (63 <? length df_t) eqn:E63;
    destruct (126 <? length df_t) eqn:E126;
    repeat match goal with
           | H : (_ <? _) = true |- _ => apply Nat.ltb_lt in H
           | H : (_ <? _) = false |- _ => apply Nat.ltb_ge in H
           end;
    try lia;
    simpl in Hin;
    destruct Hin as [E|[E|[E|[E|[]]]]]; inversion E; subst name days;
    (split; intro Hlen; [try lia | try lia]);
    split; reflexivity.
Qed.

Lemma iloc_last_map {A : Type} (f : A -> float) (d : A) (l : list A) :
  f d = NaN -> iloc_neg (map f l) 1 = f (nth (length l - 1) l d).
Proof.
  intro Hd. unfold iloc_neg. rewrite length_map, <- Hd. apply map_nth.
Qed.

(** C1.  The horizons are 1, 21, 63 and 126 trading days.  A ticker
    whose bars contain the as-of date gets exactly one record; for each
    horizon of [n] days, with at least [n + 1] bars its return is
    [(close_now - close_back) / close_back] on the adjusted close, where
    [close_now] is the ticker's last bar and [close_back] the bar [n]
    places before it; with fewer bars the return and the momentum score
    of that horizon are NaN, and nothing else depends on the other
    horizons.  When the bars are in ascending date order and none is
    later than the as-of date, the last bar is the as-of bar. *)
Theorem C1_horizon_returns (df_price : list price_row) (latest_date : date)
    (code : string) :
  has_date latest_date (ticker_frame df_price code) = true ->
  let df_t := ticker_frame df_price code in
  let closes := map AdjClose df_t in
  let close_now := iloc_neg closes 1 in
  map snd periods = [1; 21; 63; 126] /\
  (StronglySorted (fun a b => (Date a <= Date b)%Z) df_t ->
   (forall bar, In bar df_t -> (Date bar <= latest_date)%Z) ->
   exists bar, In bar df_t /\ Date bar = latest_date /\
     AdjClose bar = close_now) /\
  exists res,
    filter (fun r => (code_of r =? code)%string)
      (calculate_returns df_price latest_date) = [res] /\
    forall name days, In (name, days) periods ->
      let close_back := iloc_neg closes (days + 1) in
      (days + 1 <= length df_t ->
         field res ("return_" ++ name)
         = Some (fdiv (fsub close_now close_back) close_back) /\
         forall c p : Q,
           close_now = Fin c -> close_back = Fin p -> ~ (p == 0)%Q ->
           field res ("return_" ++ name) = Some (Fin ((c - p) / p))) /\
      (length df_t < days + 1 ->
         field res ("return_" ++ name) = Some NaN /\
         field res ("momentum_score_" ++ name) = Some NaN).
Proof.
  intros Hdate df_t closes close_now.
  split; [reflexivity|]. split.
  - intros Hsorted Hmax.
    set (d := {| Date := 0%Z; SecuritiesCode := ""; AdjClose := NaN;
                 ExpectedDividend := NaN |}).
    set (final := nth (length df_t - 1) df_t d).
    assert (Hne : 0 < length df_t).
    { unfold has_date in Hdate. apply existsb_exists in Hdate.
      destruct Hdate as [b [Hb _]]. fold df_t in Hb.
      destruct df_t; [destruct Hb | simpl; lia]. }
    assert (Hfin : In final df_t) by (apply nth_In; lia).
    exists final. split; [exact Hfin|]. split.
    + unfold has_date in Hdate. apply existsb_exists in Hdate.
      destruct Hdate as [b [Hb Eb]]. fold df_t in Hb. apply Z.eqb_eq in Eb.
      pose proof (Hmax final Hfin) as Hle.
      destruct (sorted_last_bound _ d _ Hsorted b Hb) as [E|L].
      * rewrite <- Eb. f_equal. symmetry. exact E.
      * fold final in L. lia.
    + symmetry. apply (iloc_last_map AdjClose d df_t). reflexivity.
  - exists {| code_of := code;
              fields := fold_left (horizon_step df_t) periods [] |}.
    split.
    + rewrite calculate_returns_of_code
        by (apply (has_date_in_table _ latest_date), Hdate).
      apply ticker_step_present, Hdate.
    + intros name days Hin close_back.
      destruct (horizon_fields df_t name days Hin) as [Hlong Hshort].
      split.
      * intro Hlen. destruct (Hlong Hlen) as [Hret _].
        split; [exact Hret|].
        intros c p Hc Hp Hnz.
        transitivity (Some (fdiv (fsub close_now close_back) close_back));
          [exact Hret|].
        rewrite Hc, Hp. simpl.
        apply Qeq_bool_false in Hnz. rewrite Hnz. reflexivity.
      * intro Hlen. exact (Hshort Hlen).
Qed.

(** C8.  A ticker whose bars do not contain the as-of date leaves no
    record at all in the momentum table, and every ticker of the table
    whose bars do contain it still gets its one record. *)
Theorem C8_absent_as_of (df_price : list price_row) (latest_date : date)
    (code : string) :
  has_date latest_date (ticker_frame df_price code) = false ->
  let out := calculate_returns df_price latest_date in
  (forall r, In r out -> code_of r <> code) /\
  (forall code',
     has_date latest_date (ticker_frame df_price code') = true ->
     exists r, filter (fun r => (code_of r =? code')%string) out = [r]).
Proof.
  intros Habsent out. split.
  - intros r Hr E. apply calculate_returns_In in Hr.
    destruct Hr as [c [_ Hr]].
    pose proof (ticker_step_code _ _ _ _ Hr) as Ec.
    rewrite E in Ec. subst c.
    rewrite (ticker_step_absent _ _ _ Habsent) in Hr. destruct Hr.
  - intros code' Hpresent. unfold out.
    rewrite calculate_returns_of_code
      by (apply (has_date_in_table _ latest_date), Hpresent).
    rewrite (ticker_step_present _ _ _ Hpresent). eexists. reflexivity.
Qed.

(** ** Dividend windows *)










(** ** Counting and percentile ranks *)

Lemma count_if_split {A : Type} (p : A -> bool) (l : list A) :
  count_if p l + count_if (fun x => negb (p x)) l = length l.
Proof.
  unfold count_if. induction l as [|x l IH]; simpl; [reflexivity|].
  destruct (p x); simpl; lia.
Qed.

Lemma count_if_le {A : Type} (p q : A -> bool) (l : list A) :
  (forall x, In x l -> p x = true -> q x = true) ->
  count_if p l <= count_if q l.
Proof.
  unfold count_if. induction l as [|x l IH]; intro H; simpl; [lia|].
  assert (IH' : length (filter p l) <= length (filter q l)).
  { apply IH. intros y Hy. apply H. right. exact Hy. }
  destruct (p x) eqn:P.
  - rewrite (H x (or_introl eq_refl) P). simpl. lia.
  - destruct (q x); simpl; lia.
Qed.

Lemma count_if_pos {A : Type} (p : A -> bool) (l : list A) (x : A) :
  In x l -> p x = true -> 1 <= count_if p l.
Proof.
  intros Hin Hp. unfold count_if.
  assert (H : In x (filter p l)) by (apply filter_In; split; assumption).
  destruct (filter p l); [destruct H | simpl; lia].
Qed.

Lemma count_if_perm {A : Type} (p : A -> bool) (l l' : list A) :
  Permutation l l' -> count_if p l = count_if p l'.
Proof.
  unfold count_if. induction 1 as [|x l l' _ IH|x y l|l l' l'' _ IH1 _ IH2];
    simpl.
  - reflexivity.
  - destruct (p x); simpl; rewrite IH; reflexivity.
  - destruct (p x), (p y); reflexivity.
  - rewrite IH1. exact IH2.
Qed.

Lemma count_if_map {A B : Type} (f : A -> B) (p : B -> bool) (l : list A) :
  count_if p (map f l) = count_if (fun x => p (f x)) l.
Proof.
  unfold count_if. induction l as [|x l IH]; simpl; [reflexivity|].
  destruct (p (f x)); simpl; rewrite IH; reflexivity.
Qed.

Lemma Qnat_le (a b : nat) : a <= b -> (Qnat a <= Qnat b)%Q.
Proof.
  intro H. unfold Qnat. rewrite <- Zle_Qle. lia.
Qed.

Lemma Qnat_plus (a b : nat) : (Qnat (a + b) == Qnat a + Qnat b)%Q.
Proof.
  unfold Qnat. rewrite Nat2Z.inj_add, inject_Z_plus. reflexivity.
Qed.

Lemma feqb_refl (x : float) : isnan x = false -> feqb x x = true.
Proof.
  destruct x; simpl; try reflexivity; [|discriminate].
  intros _. apply Qeq_bool_iff. reflexivity.
Qed.

Lemma feqb_not_fltb (x y : float) :
  feqb y x = true -> fltb y x = false /\ fltb x y = false.
Proof.
  destruct x as [a| | |], y as [b| | |]; simpl; try discriminate; auto.
  intro H. apply Qeq_bool_iff in H.
  split; apply Qltb_ge; rewrite H; apply Qle_refl.
Qed.

(** The comparison that puts [y] ahead of [x] in the ranking. *)
Lemma rank_counts (ascending : bool) (col : list float) (x : float) :
  In x col -> isnan x = false ->
  let before :=
    count_if (fun y => if ascending then fltb y x else fltb x y) col in
  let tied := count_if (fun y => feqb y x) col in
  1 <= tied /\ before + tied <= length col.
Proof.
  intros Hin Hx before tied. split.
  - apply (count_if_pos _ col x Hin). apply feqb_refl, Hx.
  - unfold before, tied.
    rewrite <- (count_if_split
                  (fun y => if ascending then fltb y x else fltb x y) col).
    apply Nat.add_le_mono_l. apply count_if_le.
    intros y _ H. destruct (feqb_not_fltb x y H) as [H1 H2].
    destruct ascending; [rewrite H1 | rewrite H2]; reflexivity.
Qed.

Lemma rank_pct_range (ascending : bool) (col : list float) (x : float) :
  In x col -> isnan x = false ->
  (0 < rank_pct ascending col x)%Q /\ (rank_pct ascending col x <= 1)%Q.
Proof.
  intros Hin Hx.
  destruct (rank_counts ascending col x Hin Hx) as [Ht Hbt].
  unfold rank_pct.
  set (b := count_if (fun y => if ascending then fltb y x else fltb x y) col)
    in *.
  set (t := count_if (fun y => feqb y x) col) in *.
  assert (Hn : (0 < Qnat (length col))%Q).
  { apply Qlt_le_trans with (Qnat 1); [reflexivity|].
    apply Qnat_le. lia. }
  pose proof (Qnat_le _ _ Ht) as Ht'. change (Qnat 1) with 1%Q in Ht'.
  pose proof (Qnat_le _ _ Hbt) as Hbt'. rewrite Qnat_plus in Hbt'.
  pose proof (Qnat_le 0 b (Nat.le_0_l b)) as Hb'.
  change (Qnat 0) with 0%Q in Hb'.
  split.
  - apply Qlt_shift_div_l; [exact Hn|].
    unfold Qdiv. change (/ 2)%Q with (1 # 2)%Q. lra.
  - apply Qle_shift_div_r; [exact Hn|].
    unfold Qdiv. change (/ 2)%Q with (1 # 2)%Q. lra.
Qed.

Lemma rank_pct_top (ascending : bool) (col : list float) (x : float) :
  In x col -> isnan x = false ->
  count_if (fun y => negb (if ascending then fltb y x else fltb x y)) col = 1 ->
  (rank_pct ascending col x == 1)%Q.
Proof.
  intros Hin Hx Hone.
  destruct (rank_counts ascending col x Hin Hx) as [Ht Hbt].
  pose proof (count_if_split
                (fun y => if ascending then fltb y x else fltb x y) col) as Hs.
  simpl in Hs. rewrite Hone in Hs.
  assert (Htied : count_if (fun y => feqb y x) col = 1).
  { apply Nat.le_antisymm; [|exact Ht]. rewrite <- Hone.
    apply count_if_le. intros y _ H.
    destruct (feqb_not_fltb x y H) as [H1 H2].
    destruct ascending; [rewrite H1 | rewrite H2]; reflexivity. }
  unfold rank_pct. rewrite Htied.
  set (b := count_if (fun y => if ascending then fltb y x else fltb x y) col)
    in *.
  assert (Hn : (Qnat (length col) == Qnat b + 1)%Q).
  { rewrite <- Hs, Qnat_plus. reflexivity. }
  pose proof (Qnat_le 0 b (Nat.le_0_l b)) as Hb'.
  change (Qnat 0) with 0%Q in Hb'. change (Qnat 1) with 1%Q.
  rewrite Hn. field. lra.
Qed.

(** ** calculate_scores: which records are scored *)

Section ScoreFacts.
Variable parse_numeric : string -> float.
Variable sort_values : list scored_row -> list scored_row.
Hypothesis sort_values_ok : sort_values_contract sort_values.

Local Abbreviation survivors df :=
  (drop_null (map (coerce parse_numeric) (drop_flagged df))).

Lemma coerce_not_null (r : FundRow.t) :
  existsb isna (metrics (coerce parse_numeric r)) = false <->
  forall c, In c (metrics r) -> isnan (to_numeric parse_numeric c) = false.
Proof.
  unfold metrics. simpl.
  repeat rewrite orb_false_iff. split.
  - intros [H1 [H2 [H3 [H4 [H5 _]]]]] c [<-|[<-|[<-|[<-|[<-|[]]]]]]; assumption.
  - intro H. repeat split; try reflexivity; apply H; simpl; tauto.
Qed.

Lemma survivors_In (df : list FundRow.t) (r : FundRow.t) :
  In r (survivors df) <->
  exists r0, In r0 df /\ FundRow.has_recent_missing_data r0 = false /\
    (forall c, In c (metrics r0) ->
       isnan (to_numeric parse_numeric c) = false) /\
    r = coerce parse_numeric r0.
Proof.
  unfold drop_null, drop_flagged.
  rewrite filter_In, in_map_iff, negb_true_iff. split.
  - intros [[r0 [E H0]] Hn]. apply filter_In in H0. destruct H0 as [H0 Hf].
    apply negb_true_iff in Hf. subst r.
    exists r0. repeat split; try assumption. apply coerce_not_null, Hn.
  - intros [r0 [H0 [Hf [Hn E]]]]. subst r. split.
    + exists r0. split; [reflexivity|]. apply filter_In.
      split; [exact H0 | apply negb_true_iff, Hf].
    + apply coerce_not_null, Hn.
Qed.

Lemma survivor_values (df : list FundRow.t) (r : FundRow.t) :
  In r (survivors df) ->
  forall c, In c (metrics r) -> isnan (cell_float c) = false.
Proof.
  intros H c Hc. apply survivors_In in H.
  destruct H as [r0 [_ [_ [Hn E]]]]. subst r.
  unfold metrics in Hc. simpl in Hc.
  destruct Hc as [<-|[<-|[<-|[<-|[<-|[]]]]]]; simpl; apply Hn;
    unfold metrics; simpl; tauto.
Qed.

Lemma scored_perm (df : list FundRow.t) :
  Permutation (calculate_scores parse_numeric sort_values df)
    (map (score_row (survivors df)) (survivors df)).
Proof.
  unfold calculate_scores. apply sort_values_ok.
Qed.

Lemma scored_In (df : list FundRow.t) (s : scored_row) :
  In s (calculate_scores parse_numeric sort_values df) <->
  exists r, In r (survivors df) /\ s = score_row (survivors df) r.
Proof.
  split.
  - intro H. apply (Permutation_in _ (scored_perm df)) in H.
    apply in_map_iff in H. destruct H as [r [E Hr]].
    exists r. split; [exact Hr | symmetry; exact E].
  - intros [r [Hr E]].
    apply (Permutation_in _ (Permutation_sym (scored_perm df))).
    apply in_map_iff. exists r. split; [symmetry; exact E | exact Hr].
Qed.

Lemma scored_bases (df : list FundRow.t) :
  map base (map (score_row (survivors df)) (survivors df)) = survivors df.
Proof.
  rewrite map_map. simpl. apply map_id.
Qed.

(** C7.  The scored records are, up to order, the input records that
    pass two filters in turn: first the records whose missing-data flag
    is set are dropped, then the five metric columns are coerced to
    numbers and the records where one of the five is null afterwards
    are dropped.  A record is scored exactly when its flag is clear and
    its five metrics are numbers after coercion. *)
Theorem C7_two_stage_filter (df : list FundRow.t) :
  let out := calculate_scores parse_numeric sort_values df in
  Permutation (map base out)
    (drop_null (map (coerce parse_numeric) (drop_flagged df))) /\
  (forall s, In s out ->
     exists r, In r df /\ FundRow.has_recent_missing_data r = false /\
       (forall c, In c (metrics r) ->
          isnan (to_numeric parse_numeric c) = false) /\
       base s = coerce parse_numeric r) /\
  (forall r, In r df -> FundRow.has_recent_missing_data r = false ->
     (forall c, In c (metrics r) ->
        isnan (to_numeric parse_numeric c) = false) ->
     exists s, In s out /\ base s = coerce parse_numeric r) /\
  (forall r, In r df -> FundRow.has_recent_missing_data r = true ->
     ~ In r (drop_flagged df)) /\
  (forall r c, In r (drop_flagged df) -> In c (metrics r) ->
     isnan (to_numeric parse_numeric c) = true ->
     ~ In (coerce parse_numeric r) (survivors df)).
Proof.
  intro out. split; [|split; [|split; [|split]]].
  - rewrite <- (scored_bases df). apply Permutation_map, scored_perm.
  - intros s Hs. apply scored_In in Hs. destruct Hs as [r [Hr E]].
    apply survivors_In in Hr. destruct Hr as [r0 [H0 [Hf [Hn Er]]]].
    exists r0. repeat split; try assumption. subst s. exact Er.
  - intros r Hr Hf Hn.
    exists (score_row (survivors df) (coerce parse_numeric r)).
    split; [|reflexivity]. apply scored_In.
    exists (coerce parse_numeric r). split; [|reflexivity].
    apply survivors_In. exists r. repeat split; assumption.
  - intros r _ Hf H. unfold drop_flagged in H. apply filter_In in H.
    destruct H as [_ H]. rewrite Hf in H. discriminate H.
  - intros r c _ Hc Hnan H. unfold drop_null in H. apply filter_In in H.
    destruct H as [_ H]. apply negb_true_iff in H.
    rewrite (proj1 (coerce_not_null r) H c Hc) in Hnan. discriminate Hnan.
Qed.

(** ** calculate_scores: the scores *)

Lemma score_value_in (df : list FundRow.t) (r : FundRow.t) (f : FundRow.t -> cell) :
  In r df -> In (cell_float (f r)) (column f df).
Proof.
  intro H. unfold column.
  apply (in_map (fun r => cell_float (f r))), H.
Qed.

Lemma top_count_of_single (ascending : bool) (col : list float) (x : float) :
  In x col -> isnan x = false -> length col = 1 ->
  count_if (fun y => negb (if ascending then fltb y x else fltb x y)) col = 1.
Proof.
  intros Hin Hx Hlen. apply Nat.le_antisymm.
  - rewrite <- Hlen. unfold count_if. apply filter_length_le.
  - apply (count_if_pos _ col x Hin).
    destruct (feqb_not_fltb x x (feqb_refl x Hx)) as [H _].
    destruct ascending; rewrite H; reflexivity.
Qed.

(** C6.  Every scored record has each of its five percentile scores in
    [0, 1] (in fact above 0).  A record that alone has the greatest
    [eps_growth] among the scored records has [score_eps = 1].  When a
    single record is scored, its five scores are all 1, in the ascending
    and in the descending direction alike. *)
Theorem C6_percentile_scores (df : list FundRow.t) (s : scored_row) :
  let out := calculate_scores parse_numeric sort_values df in
  let eps := fun x : scored_row => cell_float (FundRow.eps_growth (base x)) in
  In s out ->
  ((0 <= score_eps s <= 1)%Q /\ (0 <= score_rev s <= 1)%Q /\
   (0 <= score_roe s <= 1)%Q /\ (0 <= score_per s <= 1)%Q /\
   (0 <= score_pbr s <= 1)%Q) /\
  (count_if (fun x => negb (fltb (eps x) (eps s))) out = 1 ->
   (score_eps s == 1)%Q) /\
  (length out = 1 ->
   (score_eps s == 1)%Q /\ (score_rev s == 1)%Q /\ (score_roe s == 1)%Q /\
   (score_per s == 1)%Q /\ (score_pbr s == 1)%Q).
Proof.
  intros out eps Hs. apply scored_In in Hs. destruct Hs as [r [Hr E]].
  pose proof (survivor_values df r Hr) as Hv.
  assert (Hm : forall f, In (f r) (metrics r) ->
            In (cell_float (f r)) (column f (survivors df)) /\
            isnan (cell_float (f r)) = false).
  { intros f Hf. split; [apply score_value_in, Hr | apply Hv, Hf]. }
  destruct (Hm FundRow.eps_growth) as [I1 N1]; [unfold metrics; simpl; tauto|].
  destruct (Hm FundRow.revenue_growth) as [I2 N2]; [unfold metrics; simpl; tauto|].
  destruct (Hm FundRow.roe) as [I3 N3]; [unfold metrics; simpl; tauto|].
  destruct (Hm FundRow.per) as [I4 N4]; [unfold metrics; simpl; tauto|].
  destruct (Hm FundRow.pbr) as [I5 N5]; [unfold metrics; simpl; tauto|].
  subst s. cbn [score_row score_eps score_rev score_roe score_per score_pbr].
  split; [|split].
  - pose proof (rank_pct_range true _ _ I1 N1).
    pose proof (rank_pct_range true _ _ I2 N2).
    pose proof (rank_pct_range true _ _ I3 N3).
    pose proof (rank_pct_range false _ _ I4 N4).
    pose proof (rank_pct_range false _ _ I5 N5).
    repeat split; try tauto; apply Qlt_le_weak; tauto.
  - intro Hone. apply (rank_pct_top true _ _ I1 N1).
    rewrite <- Hone. unfold out.
    rewrite (count_if_perm _ _ _ (scored_perm df)).
    unfold column. rewrite !count_if_map. reflexivity.
  - intro Hlen.
    assert (Hl : forall f, length (column f (survivors df)) = 1).
    { intro f. unfold column. rewrite length_map.
      rewrite <- Hlen. unfold out.
      rewrite (Permutation_length (scored_perm df)), length_map.
      reflexivity. }
    repeat split.
    + apply (rank_pct_top true _ _ I1 N1), (top_count_of_single true); auto.
    + apply (rank_pct_top true _ _ I2 N2), (top_count_of_single true); auto.
    + apply (rank_pct_top true _ _ I3 N3), (top_count_of_single true); auto.
    + apply (rank_pct_top false _ _ I4 N4), (top_count_of_single false); auto.
    + apply (rank_pct_top false _ _ I5 N5), (top_count_of_single false); auto.
Qed.

(** ** calculate_scores: the order of the output *)

Lemma sorted_nth_error {A : Type} (R : A -> A -> Prop) (l : list A) :
  StronglySorted R l ->
  forall i j a b, i < j ->
    nth_error l i = Some a -> nth_error l j = Some b -> R a b.
Proof.
  induction 1 as [|x l Hs IH Hx]; intros i j a b Hij Ha Hb.
  - destruct i; discriminate Ha.
  - destruct j as [|j]; [lia|]. simpl in Hb.
    destruct i as [|i]; simpl in Ha.
    + injection Ha as <-. rewrite Forall_forall in Hx.
      apply Hx. eapply nth_error_In, Hb.
    + apply (IH i j); [lia | exact Ha | exact Hb].
Qed.

(** In a list sorted by descending key, fewer than [i + 1] entries have
    a key above the one at position [i], and more than [i] entries have
    a key at least as large. *)
Lemma sorted_count_above {A : Type} (key : A -> Q) (l : list A) :
  StronglySorted (fun a b => (key b <= key a)%Q) l ->
  forall i x, nth_error l i = Some x ->
    count_if (fun y => Qltb (key x) (key y)) l <= i.
Proof.
  induction 1 as [|h l Hs IH Hh]; intros i x Hx.
  - destruct i; discriminate Hx.
  - rewrite Forall_forall in Hh. destruct i as [|i]; simpl in Hx.
    + injection Hx as <-. unfold count_if. rewrite filter_none; [simpl; lia|].
      intros y [<-|Hy]; apply Qltb_ge; [apply Qle_refl | apply Hh, Hy].
    + pose proof (IH i x Hx) as Hle. unfold count_if in *. simpl.
      destruct (Qltb (key x) (key h)); simpl; lia.
Qed.

Lemma sorted_count_from {A : Type} (key : A -> Q) (l : list A) :
  StronglySorted (fun a b => (key b <= key a)%Q) l ->
  forall i x, nth_error l i = Some x ->
    i < count_if (fun y => Qle_bool (key x) (key y)) l.
Proof.
  induction 1 as [|h l Hs IH Hh]; intros i x Hx.
  - destruct i; discriminate Hx.
  - rewrite Forall_forall in Hh. unfold count_if in *. simpl.
    destruct i as [|i]; simpl in Hx.
    + injection Hx as <-.
      assert (E : Qle_bool (key h) (key h) = true)
        by (apply Qle_bool_iff, Qle_refl).
      rewrite E. simpl. lia.
    + assert (E : Qle_bool (key x) (key h) = true).
      { apply Qle_bool_iff, Hh. eapply nth_error_In, Hx. }
      rewrite E. simpl. pose proof (IH i x Hx). lia.
Qed.

(** Two descending arrangements of the same entries carry the same key
    at every position. *)
Lemma sorted_keys_agree {A : Type} (key : A -> Q) (l1 l2 : list A) :
  StronglySorted (fun a b => (key b <= key a)%Q) l1 ->
  StronglySorted (fun a b => (key b <= key a)%Q) l2 ->
  Permutation l1 l2 ->
  forall i x y, nth_error l1 i = Some x -> nth_error l2 i = Some y ->
    (key x == key y)%Q.
Proof.
  assert (Hlt : forall m1 m2 : list A,
            StronglySorted (fun a b => (key b <= key a)%Q) m1 ->
            StronglySorted (fun a b => (key b <= key a)%Q) m2 ->
            Permutation m1 m2 ->
            forall i x y, nth_error m1 i = Some x -> nth_error m2 i = Some y ->
              ~ (key x < key y)%Q).
  { intros m1 m2 S1 S2 P i x y Hx Hy Hxy.
    pose proof (sorted_count_above key m1 S1 i x Hx) as Ha.
    pose proof (sorted_count_from key m2 S2 i y Hy) as Hf.
    rewrite <- (count_if_perm _ _ _ P) in Hf.
    assert (Hsub : count_if (fun z => Qle_bool (key y) (key z)) m1
                   <= count_if (fun z => Qltb (key x) (key z)) m1).
    { apply count_if_le. intros z _ Hz. apply Qle_bool_iff in Hz.
      apply Qltb_lt. eapply Qlt_le_trans; eassumption. }
    lia. }
  intros S1 S2 P i x y Hx Hy.
  destruct (Q_dec (key x) (key y)) as [[L|G]|E]; [| |exact E]; exfalso.
  - exact (Hlt l1 l2 S1 S2 P i x y Hx Hy L).
  - exact (Hlt l2 l1 S2 S1 (Permutation_sym P) i y x Hy Hx G).
Qed.

(** C4, up to the order of ties.  The output holds the scored records,
    each once, by descending [score_total]: a record never comes after
    one with a smaller total.  The total found at each position of the
    output is the same for every sort that meets the library contract;
    which of several records with that same total sits there is not
    fixed. *)
Theorem C4_sorted_descending (df : list FundRow.t) :
  let out := calculate_scores parse_numeric sort_values df in
  StronglySorted (fun a b => (score_total b <= score_total a)%Q) out /\
  Permutation out
    (map (score_row (survivors df)) (survivors df)) /\
  (forall i j a b, i < j ->
     nth_error out i = Some a -> nth_error out j = Some b ->
     (score_total b <= score_total a)%Q) /\
  (forall other_sort, sort_values_contract other_sort ->
     forall i a b,
       nth_error out i = Some a ->
       nth_error (calculate_scores parse_numeric other_sort df) i = Some b ->
       (score_total a == score_total b)%Q).
Proof.
  intro out.
  assert (Hsorted : StronglySorted
                      (fun a b => (score_total b <= score_total a)%Q) out)
    by apply sort_values_ok.
  split; [exact Hsorted|]. split; [apply scored_perm|]. split.
  - intros i j a b Hij Ha Hb.
    exact (sorted_nth_error _ out Hsorted i j a b Hij Ha Hb).
  - intros other_sort Hother i a b Ha Hb.
    apply (sorted_keys_agree score_total out
             (calculate_scores parse_numeric other_sort df)
             Hsorted (proj2 (Hother _)))
      with (i := i); [|exact Ha | exact Hb].
    eapply perm_trans; [apply scored_perm|].
    apply Permutation_sym. unfold calculate_scores. apply Hother.
Qed.

(** C9.  Every ticker of the scored table is the ticker of an input
    record, and every scored record is the coerced copy of one input
    record; every code of the momentum table is the code of a row of the
    price table, and no code occurs twice in the momentum table. *)
Theorem C9_no_new_tickers (df : list FundRow.t) (df_price : list price_row)
    (latest_date : date) :
  let scored := calculate_scores parse_numeric sort_values df in
  let momentum := calculate_returns df_price latest_date in
  incl (map (fun s => FundRow.ticker (base s)) scored) (map FundRow.ticker df) /\
  (forall s, In s scored ->
     exists r, In r df /\ base s = coerce parse_numeric r) /\
  length scored <= length df /\
  incl (map code_of momentum) (map SecuritiesCode df_price) /\
  NoDup (map code_of momentum).
Proof.
  intros scored momentum.
  assert (Hsrc : forall s, In s scored ->
            exists r, In r df /\ base s = coerce parse_numeric r).
  { intros s Hs. apply scored_In in Hs. destruct Hs as [r [Hr E]].
    apply survivors_In in Hr. destruct Hr as [r0 [H0 [_ [_ Er]]]].
    exists r0. split; [exact H0|]. subst s. exact Er. }
  split; [|split; [exact Hsrc|split; [|split]]].
  - intros t Ht. apply in_map_iff in Ht. destruct Ht as [s [E Hs]].
    destruct (Hsrc s Hs) as [r [Hr Eb]].
    apply in_map_iff. exists r. split; [|exact Hr].
    rewrite <- E, Eb. reflexivity.
  - unfold scored.
    rewrite (Permutation_length (scored_perm df)), length_map.
    unfold drop_null, drop_flagged.
    eapply Nat.le_trans; [apply filter_length_le|].
    rewrite length_map. apply filter_length_le.
  - intros c Hc. apply in_map_iff in Hc. destruct Hc as [r [E Hr]].
    apply calculate_returns_In in Hr. destruct Hr as [c' [Hc' Hr]].
    rewrite <- E, (ticker_step_code _ _ _ _ Hr). exact Hc'.
  - unfold momentum, calculate_returns.
    rewrite ticker_loop_flat_map. simpl.
    pose proof (unique_NoDup (map SecuritiesCode df_price)) as Hnd.
    induction Hnd as [|c l Hc Hnd IH]; simpl; [constructor|].
    rewrite map_app.
    assert (Hhead : map code_of (ticker_step df_price latest_date [] c) = []
                    \/ map code_of (ticker_step df_price latest_date [] c)
                       = [c]).
    { unfold ticker_step.
      destruct (ticker_frame df_price c); [left; reflexivity|].
      destruct (negb _); [left | right]; reflexivity. }
    destruct Hhead as [-> | ->]; simpl; [exact IH|].
    constructor; [|exact IH].
    intro Hin. apply in_map_iff in Hin. destruct Hin as [r [E Hr]].
    apply in_flat_map in Hr. destruct Hr as [c' [Hc' Hr]].
    apply ticker_step_code in Hr. apply Hc. congruence.
Qed.

End ScoreFacts.

(** ** The retry loop *)

Section RetryFacts.
Variable sort_index : series -> series.
Variable years : nat.

Lemma attempt_returns (t : string) (income : income_stmt_result)
    (info : info_result) :
  exists r,
    fundamental_attempt sort_index years t (Responds income info) = Returned r.
Proof.
  unfold fundamental_attempt.
  destruct income as [| |df]; try (eexists; reflexivity).
  destruct (empty df); eexists; reflexivity.
Qed.

Lemma attempts_made_app (l1 l2 : list event) :
  attempts_made (l1 ++ l2) = attempts_made l1 + attempts_made l2.
Proof.
  unfold attempts_made. rewrite filter_app, length_app. reflexivity.
Qed.

Lemma seconds_slept_app (l1 l2 : list event) :
  seconds_slept (l1 ++ l2) = seconds_slept l1 + seconds_slept l2.
Proof.
  induction l1 as [|e l1 IH]; simpl; [reflexivity|].
  destruct e; rewrite IH; lia.
Qed.

(** Whatever the retry limit, a fetch that raises on every attempt is
    tried exactly that many times, with a sleep between two attempts. *)
Lemma retry_loop_always_raising (max_retries : nat) (t : string)
    (provider : nat -> provider_response) :
  (forall a, a < max_retries -> provider a = Raises) ->
  forall m k log, k + m = max_retries -> 1 <= m ->
    let result :=
      retry_loop sort_index years max_retries t provider (seq k m) log in
    fst result = None /\
    attempts_made (snd result) = attempts_made log + m /\
    seconds_slept (snd result)
    = seconds_slept log + (m - 1) * config.RETRY_DELAY.
Proof.
  intro Hraise. induction m as [|m IH]; intros k log Hk Hm; [lia|].
  cbn [seq retry_loop]. rewrite (Hraise k) by lia.
  cbn [fundamental_attempt].
  destruct (k <? max_retries - 1) eqn:E.
  - apply Nat.ltb_lt in E.
    destruct (IH (S k) (log ++ [Fetch k; Sleep config.RETRY_DELAY]))
      as [H1 [H2 H3]]; [lia | lia |].
    split; [exact H1|]. split.
    + rewrite H2, attempts_made_app.
      change (attempts_made [Fetch k; Sleep config.RETRY_DELAY]) with 1. lia.
    + rewrite H3, seconds_slept_app.
      change (seconds_slept [Fetch k; Sleep config.RETRY_DELAY])
        with (config.RETRY_DELAY + 0).
      unfold config.RETRY_DELAY. lia.
  - apply Nat.ltb_ge in E. assert (m = 0) by lia. subst m.
    cbn [fst snd]. split; [reflexivity|]. split.
    + rewrite attempts_made_app. reflexivity.
    + rewrite seconds_slept_app. simpl. lia.
Qed.

Lemma attempt_ticker (t : string) (resp : provider_response)
    (r : fund_result) :
  fundamental_attempt sort_index years t resp = Returned r -> ticker r = t.
Proof.
  unfold fundamental_attempt.
  destruct resp as [|income info]; [discriminate|].
  destruct income as [| |df];
    try (intro H; injection H as <-; reflexivity).
  destruct (empty df); [intro H; injection H as <-; reflexivity|].
  destruct (getitem df "Diluted EPS") as [eps|];
    [destruct (recent_two_missing eps)|];
    (destruct (getitem df "Total Revenue") as [rev|];
     [destruct (recent_two_missing rev)|]);
    (destruct info as [|d];
     [|destruct (existsb isna
                   [info_get d "trailingPE"; info_get d "priceToBook";
                    info_get d "returnOnEquity"])]);
    intro H; injection H as <-; reflexivity.
Qed.

(** Every returned dict carries the missing-data flag. *)
Lemma attempt_sets_flag (t : string) (resp : provider_response)
    (r : fund_result) :
  fundamental_attempt sort_index years t resp = Returned r ->
  has_recent_missing_data r <> None.
Proof.
  unfold fundamental_attempt.
  destruct resp as [|income info]; [discriminate|].
  destruct income as [| |df];
    try (intro H; injection H as <-; discriminate).
  destruct (empty df); [intro H; injection H as <-; discriminate|].
  destruct (getitem df "Diluted EPS") as [eps|];
    [destruct (recent_two_missing eps)|];
    (destruct (getitem df "Total Revenue") as [rev|];
     [destruct (recent_two_missing rev)|]);
    (destruct info as [|d];
     [|destruct (existsb isna
                   [info_get d "trailingPE"; info_get d "priceToBook";
                    info_get d "returnOnEquity"])]);
    intro H; injection H as <-; discriminate.
Qed.


End RetryFacts.


(** ** A clear flag next to null growth *)

Lemma change_rate_short (sort_index : series -> series) (s : series)
    (years : nat) :
  sort_index_contract sort_index ->
  length (dropna s) < years + 1 ->
  calculate_change_rate sort_index s years = None.
Proof.
  intros Hc Hlen. unfold calculate_change_rate.
  rewrite (observed_length sort_index s Hc).
  apply Nat.ltb_lt in Hlen. rewrite Hlen. reflexivity.
Qed.

(** C10.  Take an income statement whose EPS and revenue series each
    hold exactly [YEARS] = 3 non-null observations, none of the first
    two entries of either series being null, and a snapshot in which
    PER, PBR and ROE are all present.  The record fetched for it has its
    missing-data flag set to false, yet its [eps_growth] and
    [revenue_growth] are null.  In any table, that record gets through
    the flag filter, and it is the null filter after coercion that
    removes it, so it is never scored. *)
Theorem C10_clear_flag_null_growth (sort_index : series -> series)
    (parse_numeric : string -> float)
    (sort_values : list scored_row -> list scored_row)
    (t : string) (provider : nat -> provider_response)
    (df : statement) (d : list (string * cell)) (eps rev : series) :
  sort_index_contract sort_index ->
  sort_values_contract sort_values ->
  provider 0 = Responds (IncomeTable df) (InfoDict d) ->
  empty df = false ->
  getitem df "Diluted EPS" = Some eps ->
  getitem df "Total Revenue" = Some rev ->
  length (dropna eps) = config.YEARS ->
  length (dropna rev) = config.YEARS ->
  recent_two_missing eps = false ->
  recent_two_missing rev = false ->
  isna (info_get d "trailingPE") = false ->
  isna (info_get d "priceToBook") = false ->
  isna (info_get d "returnOnEquity") = false ->
  exists r,
    get_fundamental_single sort_index config.YEARS t provider
    = (Some r, [Fetch 0]) /\
    has_recent_missing_data r = Some false /\
    eps_growth r = Some PyNone /\
    revenue_growth r = Some PyNone /\
    forall table, In (to_row r) table ->
      In (to_row r) (drop_flagged table) /\
      In (coerce parse_numeric (to_row r))
        (map (coerce parse_numeric) (drop_flagged table)) /\
      ~ In (coerce parse_numeric (to_row r))
          (drop_null (map (coerce parse_numeric) (drop_flagged table))) /\
      forall s, In s (calculate_scores parse_numeric sort_values table) ->
        base s <> coerce parse_numeric (to_row r).
Proof.
  intros Hsi Hsv Hp Hempty Heps Hrev Leps Lrev Reps Rrev Nper Npbr Nroe.
  assert (Ceps : calculate_change_rate sort_index eps config.YEARS = None).
  { apply change_rate_short; [exact Hsi|]. rewrite Leps. lia. }
  assert (Crev : calculate_change_rate sort_index rev config.YEARS = None).
  { apply change_rate_short; [exact Hsi|]. rewrite Lrev. lia. }
  eexists. split.
  { unfold get_fundamental_single, config.MAX_RETRIES.
    cbn [seq retry_loop]. rewrite Hp. unfold fundamental_attempt.
    rewrite Hempty, Heps, Hrev, Ceps, Crev, Reps, Rrev.
    cbn [existsb]. rewrite Nper, Npbr, Nroe. cbn. reflexivity. }
  split; [reflexivity|]. split; [reflexivity|]. split; [reflexivity|].
  intros table Hin.
  assert (Hpass : In
            (to_row
               (set_missing false
                  (set_snapshot (info_get d "trailingPE")
                     (info_get d "priceToBook") (info_get d "returnOnEquity")
                     (set_revenue_growth PyNone
                        (set_eps_growth PyNone (new_result t))))))
            (drop_flagged table)).
  { unfold drop_flagged. apply filter_In. split; [exact Hin | reflexivity]. }
  assert (Hdrop : ~ In
            (coerce parse_numeric
               (to_row
                  (set_missing false
                     (set_snapshot (info_get d "trailingPE")
                        (info_get d "priceToBook")
                        (info_get d "returnOnEquity")
                        (set_revenue_growth PyNone
                           (set_eps_growth PyNone (new_result t)))))))
            (drop_null (map (coerce parse_numeric) (drop_flagged table)))).
  { intro H. unfold drop_null in H. apply filter_In in H.
    destruct H as [_ H]. discriminate H. }
  split; [exact Hpass|]. split; [apply in_map, Hpass|].
  split; [exact Hdrop|].
  intros s Hs E. apply Hdrop. rewrite <- E.
  apply (scored_In parse_numeric sort_values Hsv) in Hs.
  destruct Hs as [r' [Hr' Es]]. subst s. exact Hr'.
Qed.

(** * The properties on the sample data *)

(** C1 on 22 rising bars: the one-month return is (121 - 100) / 100 and
    the three-month horizon is null. *)
Lemma C1_horizon_returns_witness :
  has_date 21%Z (ticker_frame Sample.price_table "7203.T") = true /\
  exists res,
    filter (fun r => (code_of r =? "7203.T")%string)
      (calculate_returns Sample.price_table 21%Z) = [res] /\
    field res "return_1month" = Some (Fin ((121 - 100) / 100)) /\
    field res "return_3month" = Some NaN /\
    field res "momentum_score_3month" = Some NaN.
Proof.
  split; [reflexivity|].
  destruct (C1_horizon_returns Sample.price_table 21%Z "7203.T" eq_refl)
    as [_ [_ [res [Hres Hf]]]].
  exists res. split; [exact Hres|].
  destruct (Hf "1month" 21 (or_intror (or_introl eq_refl))) as [Hlong _].
  destruct (Hf "3month" 63 (or_intror (or_intror (or_introl eq_refl))))
    as [_ Hshort].
  split.
  - assert (Hlen : 21 + 1
                   <= length (ticker_frame Sample.price_table "7203.T"))
      by (vm_compute; apply le_n).
    destruct (Hlong Hlen) as [_ Hfin].
    apply (Hfin 121%Q 100%Q); [reflexivity | reflexivity |].
    intro H. discriminate H.
  - apply Hshort. vm_compute. repeat constructor.
Defined.

(** C2 on a series whose base value is negative: the rate is positive. *)
Lemma C2_change_rate_witness :
  sort_index_contract sort_index_stable /\
  exists r,
    calculate_change_rate sort_index_stable Sample.eps_from_loss 3
    = Some (Fin r) /\
    (r == (3 - -2) / Qabs (-2))%Q /\ (0 < r)%Q.
Proof.
  split; [exact sort_index_stable_contract|].
  destruct (C2_change_rate sort_index_stable Sample.eps_from_loss 3
              sort_index_stable_contract) as [_ [_ H]].
  destruct (H (-2)%Q 3%Q) as [r [Hr [Er [Hpos _]]]].
  - vm_compute. repeat constructor.
  - reflexivity.
  - reflexivity.
  - intro K. discriminate K.
  - exists r. split; [exact Hr|]. split; [exact Er|].
    apply Hpos. reflexivity.
Defined.



(** C4 on the three-record table with the reference stable sort. *)
Lemma C4_sorted_descending_witness :
  sort_values_contract sort_values_stable /\
  StronglySorted (fun a b => (score_total b <= score_total a)%Q)
    Sample.abc_scored /\
  map (fun s => FundRow.ticker (base s)) Sample.abc_scored = ["A"; "C"; "B"].
Proof.
  split; [exact sort_values_stable_contract|].
  split; [|reflexivity].
  apply (C4_sorted_descending Sample.parse_nothing sort_values_stable
           sort_values_stable_contract Sample.abc_table).
Defined.

(** C4 does not extend to ties: a sort that meets the contract of the
    default sort kind returns two records of equal total in the reverse
    of their input order. *)
Lemma C4_ties_not_in_input_order :
  sort_values_contract sort_values_reversing /\
  map FundRow.ticker Sample.tied_table = ["X"; "Y"] /\
  map (fun s => (FundRow.ticker (base s), Qred (score_total s)))
    (calculate_scores Sample.parse_nothing sort_values_reversing
       Sample.tied_table)
  = [("Y", (3 # 4)%Q); ("X", (3 # 4)%Q)].
Proof.
  split; [exact sort_values_reversing_contract|].
  split; reflexivity.
Qed.



(** C6 on the three-record table: A alone has the greatest EPS growth. *)
Lemma C6_percentile_scores_witness :
  sort_values_contract sort_values_stable /\
  In Sample.abc_top Sample.abc_scored /\
  FundRow.ticker (base Sample.abc_top) = "A" /\
  (0 <= score_per Sample.abc_top <= 1)%Q /\
  (score_eps Sample.abc_top == 1)%Q.
Proof.
  split; [exact sort_values_stable_contract|].
  assert (Hin : In Sample.abc_top Sample.abc_scored)
    by (left; reflexivity).
  split; [exact Hin|]. split; [reflexivity|].
  destruct (C6_percentile_scores Sample.parse_nothing sort_values_stable
              sort_values_stable_contract Sample.abc_table Sample.abc_top Hin)
    as [[_ [_ [_ [Hper _]]]] [Htop _]].
  split; [exact Hper|]. apply Htop. reflexivity.
Defined.

(** C7 on a table with a flagged record and a record with a null. *)
Lemma C7_two_stage_filter_witness :
  sort_values_contract sort_values_stable /\
  Permutation
    (map base
       (calculate_scores Sample.parse_nothing sort_values_stable
          Sample.mixed_table))
    (drop_null
       (map (coerce Sample.parse_nothing) (drop_flagged Sample.mixed_table))) /\
  map FundRow.ticker
    (drop_null
       (map (coerce Sample.parse_nothing) (drop_flagged Sample.mixed_table)))
  = ["A"; "B"; "C"].
Proof.
  split; [exact sort_values_stable_contract|].
  split; [|reflexivity].
  apply (C7_two_stage_filter Sample.parse_nothing sort_values_stable
           sort_values_stable_contract Sample.mixed_table).
Defined.

(** C8 on a table where one ticker stops before the as-of date. *)
Lemma C8_absent_as_of_witness :
  has_date 21%Z (ticker_frame Sample.price_table "6758.T") = false /\
  (forall r, In r (calculate_returns Sample.price_table 21%Z) ->
     code_of r <> "6758.T") /\
  exists r,
    filter (fun r => (code_of r =? "7203.T")%string)
      (calculate_returns Sample.price_table 21%Z) = [r].
Proof.
  split; [reflexivity|].
  destruct (C8_absent_as_of Sample.price_table 21%Z "6758.T" eq_refl)
    as [Hnone Hothers].
  split; [exact Hnone|]. apply Hothers. reflexivity.
Defined.

(** C9 on the sample tables. *)
Lemma C9_no_new_tickers_witness :
  sort_values_contract sort_values_stable /\
  incl
    (map (fun s => FundRow.ticker (base s))
       (calculate_scores Sample.parse_nothing sort_values_stable
          Sample.mixed_table))
    (map FundRow.ticker Sample.mixed_table) /\
  incl (map code_of (calculate_returns Sample.price_table 21%Z))
    (map SecuritiesCode Sample.price_table).
Proof.
  split; [exact sort_values_stable_contract|].
  destruct (C9_no_new_tickers Sample.parse_nothing sort_values_stable
              sort_values_stable_contract Sample.mixed_table
              Sample.price_table 21%Z) as [H1 [_ [_ [H2 _]]]].
  split; [exact H1 | exact H2].
Defined.

(** C10 on a statement of four years, the oldest one empty. *)
Lemma C10_clear_flag_null_growth_witness :
  sort_index_contract sort_index_stable /\
  sort_values_contract sort_values_stable /\
  length
    (dropna
       (combine (index Sample.three_year_statement)
          [Fin 3; Fin 2; Fin 1; NaN])) = config.YEARS /\
  exists r,
    get_fundamental_single sort_index_stable config.YEARS "7203.T"
      Sample.steady_provider = (Some r, [Fetch 0]) /\
    has_recent_missing_data r = Some false /\
    eps_growth r = Some PyNone /\
    revenue_growth r = Some PyNone /\
    In (to_row r) (drop_flagged [to_row r]) /\
    ~ In (coerce Sample.parse_nothing (to_row r))
        (drop_null
           (map (coerce Sample.parse_nothing) (drop_flagged [to_row r]))).
Proof.
  split; [exact sort_index_stable_contract|].
  split; [exact sort_values_stable_contract|].
  split; [reflexivity|].
  destruct (C10_clear_flag_null_growth sort_index_stable Sample.parse_nothing
              sort_values_stable "7203.T" Sample.steady_provider
              Sample.three_year_statement Sample.snapshot
              (combine (index Sample.three_year_statement)
                 [Fin 3; Fin 2; Fin 1; NaN])
              (combine (index Sample.three_year_statement)
                 [Fin 300; Fin 200; Fin 100; NaN])
              sort_index_stable_contract sort_values_stable_contract
              eq_refl eq_refl eq_refl eq_refl eq_refl eq_refl
              eq_refl eq_refl eq_refl eq_refl eq_refl)
    as [r [Hget [Hflag [Heps [Hrev Htable]]]]].
  exists r. split; [exact Hget|]. split; [exact Hflag|].
  split; [exact Heps|]. split; [exact Hrev|].
  destruct (Htable [to_row r] (or_introl eq_refl)) as [Hpass [_ [Hdrop _]]].
  split; [exact Hpass | exact Hdrop].
Defined.

(** * Further properties of the momentum table *)

Lemma ticker_frame_idem (df_price : list price_row) (code : string) :
  ticker_frame (ticker_frame df_price code) code = ticker_frame df_price code.
Proof.
  unfold ticker_frame. apply forallb_filter_id, forallb_forall.
  intros r Hr. apply filter_In in Hr. exact (proj2 Hr).
Qed.

Lemma unique_constant (c : string) (l : list string) :
  l <> [] -> (forall x, In x l -> x = c) -> unique l = [c].
Proof.
  induction l as [|x l IH]; intros Hne Hall; [contradiction|].
  simpl. rewrite (Hall x (or_introl eq_refl)). f_equal.
  apply filter_none. intros y Hy. apply negb_false_iff, String.eqb_eq.
  apply Hall. right. exact (proj1 (unique_In _ _) Hy).
Qed.

Lemma ticker_step_own_rows (df_price : list price_row) (latest_date : date)
    (code : string) :
  ticker_step (ticker_frame df_price code) latest_date [] code
  = ticker_step df_price latest_date [] code.
Proof.
  unfold ticker_step. rewrite ticker_frame_idem. reflexivity.
Qed.

(** X1.  The records that the momentum table holds for a code are what
    [calculate_returns] computes from the rows of that code alone: rows
    of other tickers never change a ticker's record. *)
Theorem X1_ticker_independent (df_price : list price_row)
    (latest_date : date) (code : string) :
  filter (fun r => (code_of r =? code)%string)
    (calculate_returns df_price latest_date)
  = calculate_returns (ticker_frame df_price code) latest_date.
Proof.
  destruct (in_dec string_dec code (map SecuritiesCode df_price)) as [Hin|Hout].
  - rewrite (calculate_returns_of_code _ _ _ Hin).
    assert (Hne : map SecuritiesCode (ticker_frame df_price code) <> []).
    { apply in_map_iff in Hin. destruct Hin as [r [E Hr]].
      assert (Hf : In r (ticker_frame df_price code)).
      { apply filter_In. split; [exact Hr | apply String.eqb_eq, E]. }
      intro K. apply (in_map SecuritiesCode) in Hf. rewrite K in Hf.
      destruct Hf. }
    unfold calculate_returns at 1.
    rewrite (unique_constant code _ Hne).
    + simpl. symmetry. apply ticker_step_own_rows.
    + intros x Hx. apply in_map_iff in Hx. destruct Hx as [r [<- Hr]].
      apply filter_In in Hr. apply String.eqb_eq, Hr.
  - assert (E : ticker_frame df_price code = []).
    { apply filter_none. intros r Hr. apply String.eqb_neq. intro K.
      apply Hout. rewrite <- K. apply in_map, Hr. }
    rewrite E. unfold calculate_returns at 1.
    rewrite ticker_loop_flat_map. simpl.
    apply records_of_absent_code.
    + intros c r. apply ticker_step_code.
    + intro K. apply Hout. apply unique_In, K.
Qed.

(** X2.  The momentum table lists the tickers in the order of their
    first row in the price table, keeping those whose rows contain the
    as-of date. *)
Theorem X2_record_order (df_price : list price_row) (latest_date : date) :
  map code_of (calculate_returns df_price latest_date)
  = filter (fun c => has_date latest_date (ticker_frame df_price c))
      (unique (map SecuritiesCode df_price)).
Proof.
  unfold calculate_returns. rewrite ticker_loop_flat_map. simpl.
  induction (unique (map SecuritiesCode df_price)) as [|c l IH];
    [reflexivity|].
  simpl. rewrite map_app, IH.
  destruct (has_date latest_date (ticker_frame df_price c)) eqn:E.
  - rewrite (ticker_step_present _ _ _ E). reflexivity.
  - rewrite (ticker_step_absent _ _ _ E). reflexivity.
Qed.

(** X3.  Every record of the momentum table has the same eight columns
    in the same order, a return and a momentum score per horizon,
    whatever the length of the ticker's history. *)
Theorem X3_record_schema (df_price : list price_row) (latest_date : date)
    (r : momentum_row) :
  In r (calculate_returns df_price latest_date) ->
  map fst (fields r)
  = [ "return_1day"; "momentum_score_1day";
      "return_1month"; "momentum_score_1month";
      "return_3month"; "momentum_score_3month";
      "return_6month"; "momentum_score_6month" ].
Proof.
  intro Hr. apply calculate_returns_In in Hr. destruct Hr as [c [_ Hr]].
  unfold ticker_step in Hr.
  destruct (ticker_frame df_price c) as [|b f] eqn:E; [destruct Hr|].
  destruct (negb _); [destruct Hr|]. destruct Hr as [<-|[]].
  cbn [fields]. unfold periods, fold_left, horizon_step.
  destruct (1 <? length (b :: f)); destruct (21 <? length (b :: f));
    destruct (63 <? length (b :: f)); destruct (126 <? length (b :: f));
    reflexivity.
Qed.

(** X4.  The as-of date only decides whether a ticker is reported: for
    two dates that both occur among a ticker's rows the ticker's record
    is the same, computed from its last rows. *)
Theorem X4_as_of_only_gates (df_price : list price_row) (d1 d2 : date)
    (code : string) :
  has_date d1 (ticker_frame df_price code) = true ->
  has_date d2 (ticker_frame df_price code) = true ->
  filter (fun r => (code_of r =? code)%string) (calculate_returns df_price d1)
  = filter (fun r => (code_of r =? code)%string)
      (calculate_returns df_price d2).
Proof.
  intros H1 H2.
  rewrite !calculate_returns_of_code
    by (apply (has_date_in_table _ d1), H1).
  rewrite (ticker_step_present _ _ _ H1), (ticker_step_present _ _ _ H2).
  reflexivity.
Qed.

(** * Further properties of the scores *)

Lemma fltb_trans (x y z : float) :
  fltb x y = true -> fltb y z = true -> fltb x z = true.
Proof.
  destruct x as [a| | |], y as [b| | |], z as [c| | |]; simpl;
    try discriminate; try reflexivity.
  intros H1 H2. apply Qltb_lt in H1, H2. apply Qltb_lt.
  eapply Qlt_trans; eassumption.
Qed.

Lemma feqb_fltb_left (x y z : float) :
  feqb z x = true -> fltb x y = true -> fltb z y = true.
Proof.
  destruct x as [a| | |], y as [b| | |], z as [c| | |]; simpl;
    try discriminate; try reflexivity.
  intros H1 H2. apply Qeq_bool_iff in H1. apply Qltb_lt in H2.
  apply Qltb_lt. rewrite H1. exact H2.
Qed.

Lemma feqb_fltb_right (x y z : float) :
  feqb z y = true -> fltb x y = true -> fltb x z = true.
Proof.
  destruct x as [a| | |], y as [b| | |], z as [c| | |]; simpl;
    try discriminate; try reflexivity.
  intros H1 H2. apply Qeq_bool_iff in H1. apply Qltb_lt in H2.
  apply Qltb_lt. rewrite H1. exact H2.
Qed.

Lemma float_trichotomy (x y : float) :
  isnan x = false -> isnan y = false -> fltb y x = false ->
  fltb x y = true \/ feqb x y = true.
Proof.
  destruct x as [a| | |], y as [b| | |]; simpl; try discriminate; auto.
  intros _ _ H. apply Qltb_ge in H.
  destruct (Qlt_le_dec a b) as [L|G].
  - left. apply Qltb_lt, L.
  - right. apply Qeq_bool_iff, Qle_antisym; assumption.
Qed.

Lemma feqb_same_order (x y z : float) :
  feqb x y = true ->
  fltb z x = fltb z y /\ fltb x z = fltb y z /\ feqb z x = feqb z y.
Proof.
  destruct x as [a| | |], y as [b| | |]; simpl; try discriminate;
    destruct z as [c| | |]; simpl; auto.
  intro H. apply Qeq_bool_iff in H. unfold Qltb.
  rewrite !(Qleb_comp _ _ H c c (Qeq_refl c)).
  rewrite !(Qleb_comp c c (Qeq_refl c) _ _ H).
  rewrite (Qeqb_comp c c (Qeq_refl c) _ _ H). auto.
Qed.

Lemma count_if_disjoint_le {A : Type} (p q r : A -> bool) (l : list A) :
  (forall x, In x l -> p x = true -> q x = false) ->
  (forall x, In x l -> p x = true -> r x = true) ->
  (forall x, In x l -> q x = true -> r x = true) ->
  count_if p l + count_if q l <= count_if r l.
Proof.
  unfold count_if. induction l as [|x l IH]; intros Hpq Hpr Hqr; simpl; [lia|].
  assert (IH' : length (filter p l) + length (filter q l)
                <= length (filter r l)).
  { apply IH; intros y Hy; [apply Hpq | apply Hpr | apply Hqr]; right;
      exact Hy. }
  pose proof (Hpq x (or_introl eq_refl)) as H1.
  pose proof (Hpr x (or_introl eq_refl)) as H2.
  pose proof (Hqr x (or_introl eq_refl)) as H3.
  destruct (p x), (q x), (r x); simpl;
    try (specialize (H1 eq_refl); discriminate);
    try (specialize (H2 eq_refl); discriminate);
    try (specialize (H3 eq_refl); discriminate); lia.
Qed.

Lemma rank_step (b1 t1 b2 t2 n : nat) :
  1 <= t1 -> b1 + t1 <= b2 -> 0 < n ->
  ((Qnat b1 + (Qnat t1 + 1) / 2) / Qnat n
   < (Qnat b2 + (Qnat t2 + 1) / 2) / Qnat n)%Q.
Proof.
  intros Ht Hb Hn.
  pose proof (Qnat_le _ _ Ht) as Ht'. change (Qnat 1) with 1%Q in Ht'.
  pose proof (Qnat_le _ _ Hb) as Hb'. rewrite Qnat_plus in Hb'.
  pose proof (Qnat_le 0 t2 (Nat.le_0_l t2)) as H2.
  change (Qnat 0) with 0%Q in H2.
  assert (Hn' : (0 < Qnat n)%Q).
  { apply Qlt_le_trans with (Qnat 1); [reflexivity | apply Qnat_le; lia]. }
  unfold Qdiv. apply Qmult_lt_compat_r; [apply Qinv_lt_0_compat, Hn'|].
  change (/ 2)%Q with (1 # 2)%Q. lra.
Qed.

(** A smaller value ranks strictly lower in ascending direction and
    strictly higher in descending direction. *)
Lemma rank_pct_strict (col : list float) (x y : float) :
  In x col -> In y col -> isnan x = false -> isnan y = false ->
  fltb x y = true ->
  (rank_pct true col x < rank_pct true col y)%Q /\
  (rank_pct false col y < rank_pct false col x)%Q.
Proof.
  intros Hx Hy Nx Ny Hlt.
  assert (Hn : 0 < length col) by (destruct col; [destruct Hx | simpl; lia]).
  split; unfold rank_pct; apply rank_step; try exact Hn.
  - apply (count_if_pos _ col x Hx), feqb_refl, Nx.
  - apply count_if_disjoint_le.
    + intros z _ H. destruct (feqb z x) eqn:E; [|reflexivity].
      destruct (feqb_not_fltb x z E) as [K _]. congruence.
    + intros z _ H. exact (fltb_trans z x y H Hlt).
    + intros z _ H. exact (feqb_fltb_left x y z H Hlt).
  - apply (count_if_pos _ col y Hy), feqb_refl, Ny.
  - apply count_if_disjoint_le.
    + intros z _ H. destruct (feqb z y) eqn:E; [|reflexivity].
      destruct (feqb_not_fltb y z E) as [_ K]. congruence.
    + intros z _ H. exact (fltb_trans x y z Hlt H).
    + intros z _ H. exact (feqb_fltb_right x y z H Hlt).
Qed.

Lemma rank_pct_tied (ascending : bool) (col : list float) (x y : float) :
  feqb x y = true -> rank_pct ascending col x = rank_pct ascending col y.
Proof.
  intro H. unfold rank_pct, count_if.
  rewrite (filter_ext (fun z => feqb z x) (fun z => feqb z y))
    by (intro z; apply (feqb_same_order x y z H)).
  rewrite (filter_ext
             (fun z => if ascending then fltb z x else fltb x z)
             (fun z => if ascending then fltb z y else fltb y z)).
  - reflexivity.
  - intro z. destruct (feqb_same_order x y z H) as [H1 [H2 _]].
    destruct ascending; assumption.
Qed.

(** A value that is not above another ranks no higher in ascending
    direction and no lower in descending direction. *)
Lemma rank_pct_weak (col : list float) (x y : float) :
  In x col -> In y col -> isnan x = false -> isnan y = false ->
  fltb y x = false ->
  (rank_pct true col x <= rank_pct true col y)%Q /\
  (rank_pct false col y <= rank_pct false col x)%Q.
Proof.
  intros Hx Hy Nx Ny Hle.
  destruct (float_trichotomy x y Nx Ny Hle) as [L|E].
  - destruct (rank_pct_strict col x y Hx Hy Nx Ny L) as [A B].
    split; apply Qlt_le_weak; assumption.
  - rewrite (rank_pct_tied true col x y E), (rank_pct_tied false col x y E).
    split; apply Qle_refl.
Qed.

Lemma Permutation_filter {A : Type} (p : A -> bool) (l l' : list A) :
  Permutation l l' -> Permutation (filter p l) (filter p l').
Proof.
  induction 1 as [|x l l' _ IH|x y l|l l' l'' _ IH1 _ IH2]; simpl.
  - constructor.
  - destruct (p x); [constructor|]; exact IH.
  - destruct (p x), (p y); try apply Permutation_refl. apply perm_swap.
  - eapply perm_trans; eassumption.
Qed.

Lemma rank_pct_perm (ascending : bool) (col col' : list float) (x : float) :
  Permutation col col' -> rank_pct ascending col x = rank_pct ascending col' x.
Proof.
  intro H. unfold rank_pct.
  rewrite (count_if_perm _ _ _ H), (count_if_perm _ _ _ H),
    (Permutation_length H).
  reflexivity.
Qed.

Lemma score_row_perm (df df' : list FundRow.t) (r : FundRow.t) :
  Permutation df df' -> score_row df r = score_row df' r.
Proof.
  intro H. unfold score_row, column.
  rewrite !(rank_pct_perm _ _ _ _
              (Permutation_map (fun r => cell_float (FundRow.eps_growth r)) H)).
  rewrite !(rank_pct_perm _ _ _ _
              (Permutation_map (fun r => cell_float (FundRow.revenue_growth r)) H)).
  rewrite !(rank_pct_perm _ _ _ _
              (Permutation_map (fun r => cell_float (FundRow.roe r)) H)).
  rewrite !(rank_pct_perm _ _ _ _
              (Permutation_map (fun r => cell_float (FundRow.per r)) H)).
  rewrite !(rank_pct_perm _ _ _ _
              (Permutation_map (fun r => cell_float (FundRow.pbr r)) H)).
  reflexivity.
Qed.

Lemma score_total_mean (df : list FundRow.t) (r : FundRow.t) :
  let s := score_row df r in
  (score_total s
   == (score_eps s + score_rev s + score_roe s + score_per s + score_pbr s)
      / 5)%Q.
Proof.
  unfold score_row. cbn [score_total score_eps score_rev score_roe score_per
                           score_pbr].
  unfold weighted_sum, total_weight, config.WEIGHTS.
  cbn [fold_left map fst snd score_named String.eqb Ascii.eqb Bool.eqb].
  field.
Qed.

Section MoreScoreFacts.
Variable parse_numeric : string -> float.
Variable sort_values : list scored_row -> list scored_row.
Hypothesis sort_values_ok : sort_values_contract sort_values.

Local Abbreviation survivors df :=
  (drop_null (map (coerce parse_numeric) (drop_flagged df))).

Local Abbreviation value f s := (cell_float (f (base s))).

(** What is known of a scored record: it is the scoring of a surviving
    row, and each of its five values is a number of its own column. *)
Lemma scored_facts (df : list FundRow.t) (s : scored_row) :
  In s (calculate_scores parse_numeric sort_values df) ->
  s = score_row (survivors df) (base s) /\
  forall f, In f [FundRow.eps_growth; FundRow.revenue_growth; FundRow.roe; FundRow.per;
                  FundRow.pbr] ->
    In (value f s) (column f (survivors df)) /\ isnan (value f s) = false.
Proof.
  intro Hs. apply (scored_In parse_numeric sort_values sort_values_ok) in Hs.
  destruct Hs as [r [Hr E]]. subst s. cbn [base score_row].
  split; [reflexivity|]. intros f Hf. split.
  - apply score_value_in, Hr.
  - apply (survivor_values parse_numeric df r Hr).
    unfold metrics. simpl in Hf.
    destruct Hf as [<-|[<-|[<-|[<-|[<-|[]]]]]]; simpl; tauto.
Qed.

Lemma scored_total_mean (df : list FundRow.t) (s : scored_row) :
  In s (calculate_scores parse_numeric sort_values df) ->
  (score_total s
   == (score_eps s + score_rev s + score_roe s + score_per s + score_pbr s)
      / 5)%Q.
Proof.
  intro Hs. destruct (scored_facts df s Hs) as [E _].
  pose proof (score_total_mean (survivors df) (base s)) as Hmean.
  cbv zeta in Hmean. rewrite <- E in Hmean. exact Hmean.
Qed.

(** X5.  With the configured weights, a record's total score is the
    plain mean of its five percentile scores, and lies in (0, 1]. *)
Theorem X5_total_is_mean (df : list FundRow.t) (s : scored_row) :
  In s (calculate_scores parse_numeric sort_values df) ->
  (score_total s
   == (score_eps s + score_rev s + score_roe s + score_per s + score_pbr s)
      / 5)%Q /\
  (0 < score_total s)%Q /\ (score_total s <= 1)%Q.
Proof.
  intro Hs. destruct (scored_facts df s Hs) as [E Hv].
  pose proof (score_total_mean (survivors df) (base s)) as Hmean.
  cbv zeta in Hmean. rewrite <- E in Hmean.
  destruct (Hv FundRow.eps_growth) as [I1 N1]; [simpl; tauto|].
  destruct (Hv FundRow.revenue_growth) as [I2 N2]; [simpl; tauto|].
  destruct (Hv FundRow.roe) as [I3 N3]; [simpl; tauto|].
  destruct (Hv FundRow.per) as [I4 N4]; [simpl; tauto|].
  destruct (Hv FundRow.pbr) as [I5 N5]; [simpl; tauto|].
  pose proof (rank_pct_range true _ _ I1 N1) as R1.
  pose proof (rank_pct_range true _ _ I2 N2) as R2.
  pose proof (rank_pct_range true _ _ I3 N3) as R3.
  pose proof (rank_pct_range false _ _ I4 N4) as R4.
  pose proof (rank_pct_range false _ _ I5 N5) as R5.
  assert (E1 : score_eps s
               = rank_pct true (column FundRow.eps_growth (survivors df))
                   (value FundRow.eps_growth s)) by (rewrite E at 1; reflexivity).
  assert (E2 : score_rev s
               = rank_pct true (column FundRow.revenue_growth (survivors df))
                   (value FundRow.revenue_growth s))
    by (rewrite E at 1; reflexivity).
  assert (E3 : score_roe s
               = rank_pct true (column FundRow.roe (survivors df))
                   (value FundRow.roe s)) by (rewrite E at 1; reflexivity).
  assert (E4 : score_per s
               = rank_pct false (column FundRow.per (survivors df))
                   (value FundRow.per s)) by (rewrite E at 1; reflexivity).
  assert (E5 : score_pbr s
               = rank_pct false (column FundRow.pbr (survivors df))
                   (value FundRow.pbr s)) by (rewrite E at 1; reflexivity).
  rewrite <- E1 in R1. rewrite <- E2 in R2. rewrite <- E3 in R3.
  rewrite <- E4 in R4. rewrite <- E5 in R5.
  split; [exact Hmean|]. rewrite Hmean.
  unfold Qdiv. change (/ 5)%Q with (1 # 5)%Q. split; lra.
Qed.

Lemma scored_ranks (df : list FundRow.t) (s : scored_row) :
  In s (calculate_scores parse_numeric sort_values df) ->
  score_eps s
  = rank_pct true (column FundRow.eps_growth (survivors df))
      (value FundRow.eps_growth s) /\
  score_rev s
  = rank_pct true (column FundRow.revenue_growth (survivors df))
      (value FundRow.revenue_growth s) /\
  score_roe s
  = rank_pct true (column FundRow.roe (survivors df)) (value FundRow.roe s) /\
  score_per s
  = rank_pct false (column FundRow.per (survivors df)) (value FundRow.per s) /\
  score_pbr s
  = rank_pct false (column FundRow.pbr (survivors df)) (value FundRow.pbr s).
Proof.
  intro Hs. destruct (scored_facts df s Hs) as [E _].
  repeat split; rewrite E at 1; reflexivity.
Qed.

(** X6.  Direction of the scores.  Between two scored records, the one
    with the greater EPS growth, revenue growth or ROE has the strictly
    greater score for that metric, the one with the greater PER or PBR
    has the strictly smaller score for that metric, and equal values
    get equal scores. *)
Theorem X6_score_direction (df : list FundRow.t) (s1 s2 : scored_row) :
  In s1 (calculate_scores parse_numeric sort_values df) ->
  In s2 (calculate_scores parse_numeric sort_values df) ->
  (fltb (value FundRow.eps_growth s1) (value FundRow.eps_growth s2) = true ->
   (score_eps s1 < score_eps s2)%Q) /\
  (fltb (value FundRow.revenue_growth s1) (value FundRow.revenue_growth s2) = true ->
   (score_rev s1 < score_rev s2)%Q) /\
  (fltb (value FundRow.roe s1) (value FundRow.roe s2) = true ->
   (score_roe s1 < score_roe s2)%Q) /\
  (fltb (value FundRow.per s1) (value FundRow.per s2) = true ->
   (score_per s2 < score_per s1)%Q) /\
  (fltb (value FundRow.pbr s1) (value FundRow.pbr s2) = true ->
   (score_pbr s2 < score_pbr s1)%Q) /\
  (feqb (value FundRow.eps_growth s1) (value FundRow.eps_growth s2) = true ->
   score_eps s1 = score_eps s2) /\
  (feqb (value FundRow.revenue_growth s1) (value FundRow.revenue_growth s2) = true ->
   score_rev s1 = score_rev s2) /\
  (feqb (value FundRow.roe s1) (value FundRow.roe s2) = true ->
   score_roe s1 = score_roe s2) /\
  (feqb (value FundRow.per s1) (value FundRow.per s2) = true ->
   score_per s1 = score_per s2) /\
  (feqb (value FundRow.pbr s1) (value FundRow.pbr s2) = true ->
   score_pbr s1 = score_pbr s2).
Proof.
  intros H1 H2.
  destruct (scored_facts df s1 H1) as [_ V1].
  destruct (scored_facts df s2 H2) as [_ V2].
  destruct (scored_ranks df s1 H1) as [A1 [A2 [A3 [A4 A5]]]].
  destruct (scored_ranks df s2 H2) as [B1 [B2 [B3 [B4 B5]]]].
  rewrite A1, A2, A3, A4, A5, B1, B2, B3, B4, B5.
  repeat split; intro H;
    try (apply rank_pct_tied; exact H);
    match goal with
    | |- (rank_pct true (column ?f _) _ < _)%Q =>
        destruct (V1 f) as [I1 N1]; [simpl; tauto|];
        destruct (V2 f) as [I2 N2]; [simpl; tauto|];
        exact (proj1 (rank_pct_strict _ _ _ I1 I2 N1 N2 H))
    | |- (rank_pct false (column ?f _) _ < _)%Q =>
        destruct (V1 f) as [I1 N1]; [simpl; tauto|];
        destruct (V2 f) as [I2 N2]; [simpl; tauto|];
        exact (proj2 (rank_pct_strict _ _ _ I1 I2 N1 N2 H))
    end.
Qed.

(** X7.  Dominance.  If one scored record is at least as good as
    another on all five metrics (EPS growth, revenue growth and ROE not
    smaller, PER and PBR not greater), its total score is not smaller;
    if it is moreover strictly better on one of them, its total score is
    strictly greater and it stands earlier in the output. *)
Theorem X7_dominance (df : list FundRow.t) (i j : nat) (s1 s2 : scored_row) :
  let out := calculate_scores parse_numeric sort_values df in
  nth_error out i = Some s1 -> nth_error out j = Some s2 ->
  fltb (value FundRow.eps_growth s1) (value FundRow.eps_growth s2) = false ->
  fltb (value FundRow.revenue_growth s1) (value FundRow.revenue_growth s2) = false ->
  fltb (value FundRow.roe s1) (value FundRow.roe s2) = false ->
  fltb (value FundRow.per s2) (value FundRow.per s1) = false ->
  fltb (value FundRow.pbr s2) (value FundRow.pbr s1) = false ->
  (score_total s2 <= score_total s1)%Q /\
  (fltb (value FundRow.eps_growth s2) (value FundRow.eps_growth s1) = true \/
   fltb (value FundRow.revenue_growth s2) (value FundRow.revenue_growth s1) = true \/
   fltb (value FundRow.roe s2) (value FundRow.roe s1) = true \/
   fltb (value FundRow.per s1) (value FundRow.per s2) = true \/
   fltb (value FundRow.pbr s1) (value FundRow.pbr s2) = true ->
   (score_total s2 < score_total s1)%Q /\ i < j).
Proof.
  intros out Hi Hj W1 W2 W3 W4 W5.
  assert (H1 : In s1 out) by (eapply nth_error_In, Hi).
  assert (H2 : In s2 out) by (eapply nth_error_In, Hj).
  destruct (scored_facts df s1 H1) as [_ V1].
  destruct (scored_facts df s2 H2) as [_ V2].
  destruct (scored_ranks df s1 H1) as [A1 [A2 [A3 [A4 A5]]]].
  destruct (scored_ranks df s2 H2) as [B1 [B2 [B3 [B4 B5]]]].
  pose proof (scored_total_mean df s1 H1) as M1.
  pose proof (scored_total_mean df s2 H2) as M2.
  destruct (V1 FundRow.eps_growth) as [I1 N1]; [simpl; tauto|].
  destruct (V2 FundRow.eps_growth) as [J1 K1]; [simpl; tauto|].
  destruct (V1 FundRow.revenue_growth) as [I2 N2]; [simpl; tauto|].
  destruct (V2 FundRow.revenue_growth) as [J2 K2]; [simpl; tauto|].
  destruct (V1 FundRow.roe) as [I3 N3]; [simpl; tauto|].
  destruct (V2 FundRow.roe) as [J3 K3]; [simpl; tauto|].
  destruct (V1 FundRow.per) as [I4 N4]; [simpl; tauto|].
  destruct (V2 FundRow.per) as [J4 K4]; [simpl; tauto|].
  destruct (V1 FundRow.pbr) as [I5 N5]; [simpl; tauto|].
  destruct (V2 FundRow.pbr) as [J5 K5]; [simpl; tauto|].
  pose proof (proj1 (rank_pct_weak _ _ _ J1 I1 K1 N1 W1)) as L1.
  pose proof (proj1 (rank_pct_weak _ _ _ J2 I2 K2 N2 W2)) as L2.
  pose proof (proj1 (rank_pct_weak _ _ _ J3 I3 K3 N3 W3)) as L3.
  pose proof (proj2 (rank_pct_weak _ _ _ I4 J4 N4 K4 W4)) as L4.
  pose proof (proj2 (rank_pct_weak _ _ _ I5 J5 N5 K5 W5)) as L5.
  rewrite <- A1, <- B1 in L1. rewrite <- A2, <- B2 in L2.
  rewrite <- A3, <- B3 in L3. rewrite <- A4, <- B4 in L4.
  rewrite <- A5, <- B5 in L5.
  split.
  - rewrite M1, M2. unfold Qdiv. change (/ 5)%Q with (1 # 5)%Q. lra.
  - intro Hstrict.
    assert (Hlt : (score_total s2 < score_total s1)%Q).
    { rewrite M1, M2. unfold Qdiv. change (/ 5)%Q with (1 # 5)%Q.
      destruct Hstrict as [S|[S|[S|[S|S]]]].
      - pose proof (proj1 (rank_pct_strict _ _ _ J1 I1 K1 N1 S)) as T.
        rewrite <- A1, <- B1 in T. lra.
      - pose proof (proj1 (rank_pct_strict _ _ _ J2 I2 K2 N2 S)) as T.
        rewrite <- A2, <- B2 in T. lra.
      - pose proof (proj1 (rank_pct_strict _ _ _ J3 I3 K3 N3 S)) as T.
        rewrite <- A3, <- B3 in T. lra.
      - pose proof (proj2 (rank_pct_strict _ _ _ I4 J4 N4 K4 S)) as T.
        rewrite <- A4, <- B4 in T. lra.
      - pose proof (proj2 (rank_pct_strict _ _ _ I5 J5 N5 K5 S)) as T.
        rewrite <- A5, <- B5 in T. lra. }
    split; [exact Hlt|].
    assert (Hsorted : StronglySorted
                        (fun a b => (score_total b <= score_total a)%Q) out)
      by apply sort_values_ok.
    destruct (Nat.lt_trichotomy i j) as [L|[E|G]]; [exact L| |]; exfalso.
    + subst j. rewrite Hi in Hj. injection Hj as <-. lra.
    + pose proof (sorted_nth_error _ out Hsorted j i s2 s1 G Hj Hi) as K.
      cbv beta in K. lra.
Qed.

(** X8.  The scores do not depend on the order in which the records
    arrive: for two tables with the same records in any order, and
    whichever way the final sort treats ties, the scored records are the
    same up to their order. *)
Theorem X8_fetch_order_irrelevant (df df' : list FundRow.t)
    (other_sort : list scored_row -> list scored_row) :
  sort_values_contract other_sort ->
  Permutation df df' ->
  Permutation (calculate_scores parse_numeric sort_values df)
    (calculate_scores parse_numeric other_sort df').
Proof.
  intros Hother Hperm.
  assert (Hsurv : Permutation (survivors df) (survivors df')).
  { unfold drop_null, drop_flagged.
    apply Permutation_filter, Permutation_map, Permutation_filter, Hperm. }
  eapply perm_trans;
    [apply (scored_perm parse_numeric sort_values sort_values_ok)|].
  eapply perm_trans;
    [|apply Permutation_sym, (scored_perm parse_numeric other_sort Hother)].
  rewrite (map_ext _ _ (fun r => score_row_perm _ _ r Hsurv)).
  apply Permutation_map, Hsurv.
Qed.

End MoreScoreFacts.


(** * Further properties of the growth rate *)

Lemma NoDup_map_inj {A B : Type} (f : A -> B) (l : list A) (x y : A) :
  NoDup (map f l) -> In x l -> In y l -> f x = f y -> x = y.
Proof.
  induction l as [|a l IH]; intros Hnd Hx Hy E; [destruct Hx|].
  simpl in Hnd. inversion Hnd as [|? ? Ha Hnd']; subst.
  destruct Hx as [<-|Hx], Hy as [<-|Hy].
  - reflexivity.
  - exfalso. apply Ha. rewrite E. apply in_map, Hy.
  - exfalso. apply Ha. rewrite <- E. apply in_map, Hx.
  - apply IH; assumption.
Qed.

(** Entries with distinct dates have one ascending arrangement only. *)
Lemma sorted_by_date_unique (l1 l2 : series) :
  StronglySorted (fun a b => (fst a <= fst b)%Z) l1 ->
  StronglySorted (fun a b => (fst a <= fst b)%Z) l2 ->
  Permutation l1 l2 -> NoDup (map fst l1) -> l1 = l2.
Proof.
  intro S1. revert l2.
  induction S1 as [|a l1 S1 IH Ha]; intros l2 S2 P Hnd.
  - apply Permutation_nil in P. symmetry. exact P.
  - destruct l2 as [|b l2].
    + apply Permutation_sym, Permutation_nil in P. discriminate P.
    + inversion S2 as [|? ? S2' Hb]; subst.
      rewrite Forall_forall in Ha, Hb.
      assert (Hba : In b (a :: l1))
        by (apply (Permutation_in _ (Permutation_sym P)); left; reflexivity).
      assert (Hab : In a (b :: l2))
        by (apply (Permutation_in _ P); left; reflexivity).
      assert (E : a = b).
      { apply (NoDup_map_inj fst (a :: l1)); try assumption;
          [left; reflexivity|].
        apply Z.le_antisymm.
        - destruct Hba as [->|Hba]; [lia | apply Ha, Hba].
        - destruct Hab as [->|Hab]; [lia | apply Hb, Hab]. }
      subst b. apply (f_equal (cons a)). apply IH; [exact S2'| |].
      * apply Permutation_cons_inv with a. exact P.
      * simpl in Hnd. inversion Hnd. assumption.
Qed.

(** X9.  When the non-null observations carry distinct dates, the growth
    rate depends neither on the order in which the provider lists the
    periods nor on how the library sorts: any two arrangements of the
    same observations give the same result. *)
Theorem X9_change_rate_order_free (sort1 sort2 : series -> series)
    (s s' : series) (years : nat) :
  sort_index_contract sort1 -> sort_index_contract sort2 ->
  Permutation s s' ->
  NoDup (map fst (dropna s)) ->
  calculate_change_rate sort1 s years = calculate_change_rate sort2 s' years.
Proof.
  intros H1 H2 P Hnd.
  assert (Pd : Permutation (dropna s) (dropna s'))
    by (apply Permutation_filter, P).
  destruct (H1 (dropna s)) as [P1 S1]. destruct (H2 (dropna s')) as [P2 S2].
  assert (E : sort1 (dropna s) = sort2 (dropna s')).
  { apply sorted_by_date_unique; try assumption.
    - eapply perm_trans; [exact P1|].
      eapply perm_trans; [exact Pd | apply Permutation_sym, P2].
    - apply (Permutation_NoDup (l := map fst (dropna s))); [|exact Hnd].
      apply Permutation_map, Permutation_sym, P1. }
  unfold calculate_change_rate. rewrite E. reflexivity.
Qed.

(** * Further properties of the price fetch *)

(** X10.  [get_stock_data_single] gives a frame exactly when the
    provider answers with a non-empty history.  The frame has one row
    per history row, in the same order, with the same date and adjusted
    close, every row carries the requested ticker, and the expected
    dividend is the history's dividend, or 0 where that is null: it is
    never null. *)
Theorem X10_price_frame (t : string) (provider : nat -> history_response) :
  (fst (get_stock_data_single t provider) = None <->
   provider 0 = HistoryRaises \/ provider 0 = History []) /\
  forall rows, fst (get_stock_data_single t provider) = Some rows ->
    exists hist,
      provider 0 = History hist /\ hist <> [] /\
      map Date rows = map hist_date hist /\
      map AdjClose rows = map hist_adj_close hist /\
      (forall r, In r rows ->
         SecuritiesCode r = t /\ isnan (ExpectedDividend r) = false) /\
      map ExpectedDividend rows
      = map (fun h => if isnan (hist_dividends h) then Fin 0
                      else hist_dividends h) hist.
Proof.
  unfold get_stock_data_single.
  destruct (provider 0) as [|hist] eqn:E.
  - split; [split; auto|]. intros rows H. discriminate H.
  - destruct hist as [|h hist].
    + split; [split; auto|]. intros rows H. discriminate H.
    + cbn [fst]. split.
      * split; [discriminate|]. intros [K|K]; discriminate K.
      * intros rows H. exists (h :: hist).
        assert (Hrows : rows
                  = map (fun h0 =>
                           {| Date := hist_date h0; SecuritiesCode := t;
                              AdjClose := hist_adj_close h0;
                              ExpectedDividend :=
                                fillna0 (hist_dividends h0) |})
                      (h :: hist))
          by (injection H; intro K; symmetry; exact K).
        clear H. remember (h :: hist) as hs eqn:Ehs. subst rows.
        split; [reflexivity|]. split; [rewrite Ehs; discriminate|].
        rewrite !map_map. cbn [Date AdjClose ExpectedDividend].
        split; [reflexivity|]. split; [reflexivity|]. split.
        -- intros r Hr. apply in_map_iff in Hr. destruct Hr as [h' [<- _]].
           cbn [SecuritiesCode ExpectedDividend]. split; [reflexivity|].
           unfold fillna0. destruct (isnan (hist_dividends h')) eqn:N;
             [reflexivity | exact N].
        -- reflexivity.
Qed.

Lemma rows_of_ticker (f : string -> list price_row) (t : string)
    (l : list string) :
  (forall c r, In r (f c) -> SecuritiesCode r = c) ->
  NoDup l ->
  ticker_frame (flat_map f l) t = if in_dec string_dec t l then f t else [].
Proof.
  intros Hf Hnd. unfold ticker_frame.
  induction Hnd as [|c l Hc Hnd IH]; [reflexivity|].
  simpl flat_map. rewrite filter_app, IH.
  destruct (string_dec c t) as [->|N].
  - destruct (in_dec string_dec t (t :: l)) as [_|K];
      [|exfalso; apply K; left; reflexivity].
    destruct (in_dec string_dec t l) as [K|_]; [contradiction|].
    rewrite app_nil_r. apply forallb_filter_id, forallb_forall.
    intros r Hr. apply String.eqb_eq, (Hf t r Hr).
  - rewrite filter_none.
    + destruct (in_dec string_dec t l) as [K|K];
        destruct (in_dec string_dec t (c :: l)) as [K'|K']; simpl;
        try reflexivity.
      * exfalso. apply K'. right. exact K.
      * exfalso. destruct K' as [E|K']; [exact (N E) | exact (K K')].
    + intros r Hr. apply String.eqb_neq. rewrite (Hf c r Hr). exact N.
Qed.

(** X11.  Whether the bulk download goes through or raises, the price
    table that [get_stock_data_bulk] returns is the concatenation of the
    per-ticker frames: for tickers submitted once each, the rows of the
    table that carry a ticker's code are exactly the frame its own fetch
    returned, in order, and a ticker whose fetch gave nothing, or that
    was not submitted, has no row. *)
Theorem X11_bulk_table_frames (download_raises : bool)
    (provider : string -> nat -> history_response)
    (completed : list string) (t : string) :
  NoDup completed ->
  let table := get_stock_data_bulk download_raises provider completed in
  (In t completed ->
   ticker_frame table t
   = match fst (get_stock_data_single t (provider t)) with
     | Some rows => rows
     | None => []
     end) /\
  (~ In t completed -> ticker_frame table t = []) /\
  (forall r, In r table -> In (SecuritiesCode r) completed).
Proof.
  intros Hnd table.
  assert (Hcode : forall c r,
            In r match fst (get_stock_data_single c (provider c)) with
                 | Some res => res
                 | None => []
                 end -> SecuritiesCode r = c).
  { intros c r Hr. unfold get_stock_data_single in Hr.
    destruct (provider c 0) as [|hist]; [destruct Hr|].
    destruct hist as [|h hist]; [destruct Hr|].
    cbn [fst] in Hr. apply in_map_iff in Hr. destruct Hr as [h' [<- _]].
    reflexivity. }
  assert (Etable : table = get_stock_data_parallel provider completed)
    by (unfold table, get_stock_data_bulk; destruct download_raises;
        reflexivity).
  rewrite Etable. unfold get_stock_data_parallel.
  rewrite (rows_of_ticker _ t completed Hcode Hnd).
  split; [|split].
  - intro Hin. destruct (in_dec string_dec t completed); [reflexivity|].
    contradiction.
  - intro Hout. destruct (in_dec string_dec t completed); [contradiction|].
    reflexivity.
  - intros r Hr. apply in_flat_map in Hr. destruct Hr as [c [Hc Hr]].
    rewrite (Hcode c r Hr). exact Hc.
Qed.

(** * Further properties of the fundamentals fetch *)

Section MoreFetchFacts.
Variable sort_index : series -> series.
Variable years : nat.

Local Abbreviation attempt t resp :=
  (fundamental_attempt sort_index years t resp).

Local Abbreviation fetch t provider :=
  (get_fundamental_single sort_index years t provider).

(** The three possible runs of the loop. *)
Lemma fetch_runs (t : string) (provider : nat -> provider_response) :
  (exists i f r,
     provider 0 = Responds i f /\ attempt t (Responds i f) = Returned r /\
     fetch t provider = (Some r, [Fetch 0])) \/
  (exists i f r,
     provider 0 = Raises /\ provider 1 = Responds i f /\
     attempt t (Responds i f) = Returned r /\
     fetch t provider
     = (Some r, [Fetch 0; Sleep config.RETRY_DELAY; Fetch 1])) \/
  (exists i f r,
     provider 0 = Raises /\ provider 1 = Raises /\
     provider 2 = Responds i f /\
     attempt t (Responds i f) = Returned r /\
     fetch t provider
     = (Some r,
        [Fetch 0; Sleep config.RETRY_DELAY;
         Fetch 1; Sleep config.RETRY_DELAY; Fetch 2])) \/
  (provider 0 = Raises /\ provider 1 = Raises /\ provider 2 = Raises /\
   fetch t provider
   = (None,
      [Fetch 0; Sleep config.RETRY_DELAY;
       Fetch 1; Sleep config.RETRY_DELAY; Fetch 2])).
Proof.
  unfold get_fundamental_single, config.MAX_RETRIES. cbn [seq retry_loop].
  destruct (provider 0) as [|i0 f0] eqn:E0.
  - change (fundamental_attempt sort_index years t Raises) with Raised.
    cbv iota. cbn [Nat.ltb Nat.leb Nat.sub app].
    destruct (provider 1) as [|i1 f1] eqn:E1.
    + change (fundamental_attempt sort_index years t Raises) with Raised.
      cbv iota. cbn [Nat.ltb Nat.leb Nat.sub app].
      destruct (provider 2) as [|i2 f2] eqn:E2.
      * right. right. right. repeat split; reflexivity.
      * right. right. left.
        destruct (attempt_returns sort_index years t i2 f2) as [r Hr].
        exists i2, f2, r. rewrite Hr. repeat split; reflexivity.
    + right. left.
      destruct (attempt_returns sort_index years t i1 f1) as [r Hr].
      exists i1, f1, r. rewrite Hr. repeat split; reflexivity.
  - left. destruct (attempt_returns sort_index years t i0 f0) as [r Hr].
    exists i0, f0, r. rewrite Hr. repeat split; reflexivity.
Qed.

(** X12.  The first attempt that does not raise decides the fetch: its
    record is the result, no later attempt is made, and the caller has
    slept [RETRY_DELAY] once for each earlier attempt.  The result is
    [None] exactly when all [MAX_RETRIES] attempts raise.  In every run
    there are between one and [MAX_RETRIES] attempts and one sleep fewer
    than attempts, so at most 4 seconds of sleep. *)
Theorem X12_first_answer_wins (t : string)
    (provider : nat -> provider_response) :
  let out := fetch t provider in
  (forall k income info,
     k < config.MAX_RETRIES ->
     (forall a, a < k -> provider a = Raises) ->
     provider k = Responds income info ->
     exists r,
       attempt t (Responds income info) = Returned r /\
       fst out = Some r /\
       attempts_made (snd out) = k + 1 /\
       seconds_slept (snd out) = k * config.RETRY_DELAY) /\
  (fst out = None <->
   forall a, a < config.MAX_RETRIES -> provider a = Raises) /\
  1 <= attempts_made (snd out) <= config.MAX_RETRIES /\
  seconds_slept (snd out)
  = (attempts_made (snd out) - 1) * config.RETRY_DELAY /\
  seconds_slept (snd out) <= 4.
Proof.
  intro out. unfold config.MAX_RETRIES.
  destruct (fetch_runs t provider)
    as [[i [f [r [E0 [Hr Hout]]]]]
       |[[i [f [r [E0 [E1 [Hr Hout]]]]]]
        |[[i [f [r [E0 [E1 [E2 [Hr Hout]]]]]]]
         |[E0 [E1 [E2 Hout]]]]]];
    unfold out; rewrite Hout; cbn [fst snd];
    (split; [|split; [|split; [|split]]]);
    try (vm_compute; lia); try reflexivity.
  - intros k income info Hk Hprev Hk'.
    destruct k as [|k]; [|rewrite (Hprev 0) in E0 by lia; discriminate E0].
    rewrite E0 in Hk'. injection Hk' as <- <-.
    exists r. repeat split; try reflexivity; exact Hr.
  - split; [discriminate|]. intro H. rewrite (H 0) in E0 by lia.
    discriminate E0.
  - intros k income info Hk Hprev Hk'.
    destruct k as [|[|k]];
      [rewrite E0 in Hk'; discriminate Hk'
      | | rewrite (Hprev 1) in E1 by lia; discriminate E1].
    rewrite E1 in Hk'. injection Hk' as <- <-.
    exists r. repeat split; try reflexivity; exact Hr.
  - split; [discriminate|]. intro H. rewrite (H 1) in E1 by lia.
    discriminate E1.
  - intros k income info Hk Hprev Hk'.
    destruct k as [|[|[|k]]];
      [rewrite E0 in Hk'; discriminate Hk'
      | rewrite E1 in Hk'; discriminate Hk'
      | | lia].
    rewrite E2 in Hk'. injection Hk' as <- <-.
    exists r. repeat split; try reflexivity; exact Hr.
  - split; [discriminate|]. intro H. rewrite (H 2) in E2 by lia.
    discriminate E2.
  - intros k income info Hk Hprev Hk'.
    destruct k as [|[|[|k]]]; [| | |lia].
    + rewrite E0 in Hk'. discriminate Hk'.
    + rewrite E1 in Hk'. discriminate Hk'.
    + rewrite E2 in Hk'. discriminate Hk'.
  - split; [|reflexivity]. intros _ a Ha.
    destruct a as [|[|[|a]]]; [exact E0 | exact E1 | exact E2 | lia].
Qed.

(** X13.  What the missing-data flag means.  The record of an attempt
    has its flag false exactly when the income statement is a non-empty
    table holding both the EPS and the revenue column, neither column
    has a null among its first two entries, and the snapshot gives PER,
    PBR and ROE all non-null; in every other case the flag is true.  The
    flag is always present. *)
Theorem X13_flag_meaning (t : string) (income : income_stmt_result)
    (info : info_result) (r : fund_result) :
  attempt t (Responds income info) = Returned r ->
  (has_recent_missing_data r = Some false <->
   exists df d eps rev,
     income = IncomeTable df /\ empty df = false /\
     getitem df "Diluted EPS" = Some eps /\
     getitem df "Total Revenue" = Some rev /\
     recent_two_missing eps = false /\ recent_two_missing rev = false /\
     info = InfoDict d /\
     isna (info_get d "trailingPE") = false /\
     isna (info_get d "priceToBook") = false /\
     isna (info_get d "returnOnEquity") = false) /\
  (has_recent_missing_data r = Some false \/
   has_recent_missing_data r = Some true).
Proof.
  unfold fundamental_attempt.
  destruct income as [| |df].
  1, 2: intro H; injection H as <-; split; [|right; reflexivity];
        split; [discriminate|];
        intros [df [d [e [v [K _]]]]]; discriminate K.
  destruct (empty df) eqn:Eempty.
  { intro H. injection H as <-. split; [|right; reflexivity].
    split; [discriminate|].
    intros [df' [d [e [v [K [K' _]]]]]]. injection K as <-. congruence. }
  destruct (getitem df "Diluted EPS") as [eps|] eqn:Eeps;
    [destruct (recent_two_missing eps) eqn:Reps|];
    (destruct (getitem df "Total Revenue") as [rev|] eqn:Erev;
     [destruct (recent_two_missing rev) eqn:Rrev|]);
    (destruct info as [|d];
     [|destruct (existsb isna
                   [info_get d "trailingPE"; info_get d "priceToBook";
                    info_get d "returnOnEquity"]) eqn:Einfo]);
    intro H; injection H as <-; cbn [has_recent_missing_data set_missing
      set_snapshot set_revenue_growth set_eps_growth new_result];
    (split; [|auto]);
    (split;
     [ try discriminate; intros _;
       cbn [existsb] in Einfo;
       apply orb_false_iff in Einfo; destruct Einfo as [I1 Einfo];
       apply orb_false_iff in Einfo; destruct Einfo as [I2 Einfo];
       apply orb_false_iff in Einfo; destruct Einfo as [I3 _];
       exists df, d, eps, rev; repeat split; assumption
     | try reflexivity;
       intros [df' [d' [e [v [K1 [K2 [K3 [K4 [K5 [K6 [K7 [K8 [K9 K10]]]]]]]]]]]]];
       injection K1 as <-;
       try discriminate K7; try (injection K7 as <-);
       try (cbn [existsb] in Einfo; rewrite K8, K9, K10 in Einfo;
            discriminate Einfo);
       congruence ]).
Qed.

Lemma fetch_answers (t : string) (provider : nat -> provider_response) :
  if answers_within config.MAX_RETRIES provider
  then exists r, fst (fetch t provider) = Some r /\ ticker r = t
  else fst (fetch t provider) = None.
Proof.
  unfold answers_within, config.MAX_RETRIES. cbn [seq existsb].
  destruct (fetch_runs t provider)
    as [[i [f [r [E0 [Hr Hout]]]]]
       |[[i [f [r [E0 [E1 [Hr Hout]]]]]]
        |[[i [f [r [E0 [E1 [E2 [Hr Hout]]]]]]]
         |[E0 [E1 [E2 Hout]]]]]];
    rewrite Hout; try rewrite E0; try rewrite E1; try rewrite E2;
    cbn [orb fst]; try reflexivity;
    exists r; (split; [reflexivity|]);
    exact (attempt_ticker sort_index years t _ r Hr).
Qed.

End MoreFetchFacts.

(** X14.  The fundamentals table holds one row for each submitted ticker
    whose fetch did not raise on all [MAX_RETRIES] attempts, in
    completion order, under that ticker's name; the tickers whose fetch
    failed are left out and nothing else is. *)
Theorem X14_table_tickers (sort_index : series -> series)
    (provider : string -> nat -> provider_response)
    (completed : list string) :
  let table := get_fundamentals_parallel sort_index provider completed in
  map FundRow.ticker table
  = filter (fun t => answers_within config.MAX_RETRIES (provider t))
      completed /\
  length table <= length completed.
Proof.
  intro table.
  assert (E : map FundRow.ticker table
              = filter
                  (fun t => answers_within config.MAX_RETRIES (provider t))
                  completed).
  { unfold table, get_fundamentals_parallel, DataFrame.
    induction completed as [|t l IH]; [reflexivity|].
    cbn [flat_map filter]. rewrite map_app, map_app, IH.
    pose proof (fetch_answers sort_index config.YEARS t (provider t)) as H.
    destruct (answers_within config.MAX_RETRIES (provider t)).
    - destruct H as [r [Hr Ht]]. rewrite Hr. cbn [map app to_row FundRow.ticker].
      rewrite Ht. reflexivity.
    - rewrite H. reflexivity. }
  split; [exact E|].
  rewrite <- (length_map FundRow.ticker table), E. apply filter_length_le.
Qed.


(** * min_max *)








(** * The further properties on the sample data *)

Lemma X3_record_schema_witness :
  In Demo.first_record (calculate_returns Sample.price_table 21%Z) /\
  code_of Demo.first_record = "7203.T" /\
  map fst (fields Demo.first_record)
  = [ "return_1day"; "momentum_score_1day";
      "return_1month"; "momentum_score_1month";
      "return_3month"; "momentum_score_3month";
      "return_6month"; "momentum_score_6month" ].
Proof.
  assert (Hin : In Demo.first_record
                  (calculate_returns Sample.price_table 21%Z))
    by (left; reflexivity).
  split; [exact Hin|]. split; [reflexivity|].
  exact (X3_record_schema Sample.price_table 21%Z Demo.first_record Hin).
Defined.

Lemma X4_as_of_only_gates_witness :
  has_date 21%Z (ticker_frame Sample.price_table "7203.T") = true /\
  has_date 5%Z (ticker_frame Sample.price_table "7203.T") = true /\
  filter (fun r => (code_of r =? "7203.T")%string)
    (calculate_returns Sample.price_table 21%Z)
  = filter (fun r => (code_of r =? "7203.T")%string)
      (calculate_returns Sample.price_table 5%Z).
Proof.
  split; [reflexivity|]. split; [reflexivity|].
  exact (X4_as_of_only_gates Sample.price_table 21%Z 5%Z "7203.T"
           eq_refl eq_refl).
Defined.

Lemma X5_total_is_mean_witness :
  sort_values_contract sort_values_stable /\
  In Sample.abc_top Sample.abc_scored /\
  (score_total Sample.abc_top == 13 # 15)%Q /\
  (score_total Sample.abc_top <= 1)%Q.
Proof.
  split; [exact sort_values_stable_contract|].
  assert (Hin : In Sample.abc_top Sample.abc_scored) by (left; reflexivity).
  split; [exact Hin|].
  destruct (X5_total_is_mean Sample.parse_nothing sort_values_stable
              sort_values_stable_contract Sample.abc_table Sample.abc_top Hin)
    as [Hmean [_ Hle]].
  split; [|exact Hle]. rewrite Hmean. reflexivity.
Defined.

Lemma X6_score_direction_witness :
  sort_values_contract sort_values_stable /\
  In Demo.abc_second Sample.abc_scored /\
  In Sample.abc_top Sample.abc_scored /\
  (score_eps Demo.abc_second < score_eps Sample.abc_top)%Q /\
  (score_per Demo.abc_second < score_per Sample.abc_top)%Q.
Proof.
  split; [exact sort_values_stable_contract|].
  assert (H1 : In Sample.abc_top Sample.abc_scored) by (left; reflexivity).
  assert (H2 : In Demo.abc_second Sample.abc_scored)
    by (right; left; reflexivity).
  split; [exact H2|]. split; [exact H1|].
  destruct (X6_score_direction Sample.parse_nothing sort_values_stable
              sort_values_stable_contract Sample.abc_table
              Demo.abc_second Sample.abc_top H2 H1)
    as [Heps _].
  destruct (X6_score_direction Sample.parse_nothing sort_values_stable
              sort_values_stable_contract Sample.abc_table
              Sample.abc_top Demo.abc_second H1 H2)
    as [_ [_ [_ [Hper _]]]].
  split; [apply Heps | apply Hper]; reflexivity.
Defined.

Lemma X7_dominance_witness :
  sort_values_contract sort_values_stable /\
  nth_error Sample.abc_scored 0 = Some Sample.abc_top /\
  nth_error Sample.abc_scored 2 = Some Demo.abc_third /\
  FundRow.ticker (base Sample.abc_top) = "A" /\
  FundRow.ticker (base Demo.abc_third) = "B" /\
  (score_total Demo.abc_third < score_total Sample.abc_top)%Q.
Proof.
  split; [exact sort_values_stable_contract|].
  split; [reflexivity|]. split; [reflexivity|].
  split; [reflexivity|]. split; [reflexivity|].
  destruct (X7_dominance Sample.parse_nothing sort_values_stable
              sort_values_stable_contract Sample.abc_table 0 2
              Sample.abc_top Demo.abc_third eq_refl eq_refl
              eq_refl eq_refl eq_refl eq_refl eq_refl) as [_ Hstrict].
  apply Hstrict. left. reflexivity.
Defined.

Lemma X8_fetch_order_irrelevant_witness :
  sort_values_contract sort_values_stable /\
  sort_values_contract sort_values_reversing /\
  Permutation Sample.abc_table (rev Sample.abc_table) /\
  Permutation Sample.abc_scored
    (calculate_scores Sample.parse_nothing sort_values_reversing
       (rev Sample.abc_table)).
Proof.
  split; [exact sort_values_stable_contract|].
  split; [exact sort_values_reversing_contract|].
  split; [apply Permutation_rev|].
  exact (X8_fetch_order_irrelevant Sample.parse_nothing sort_values_stable
           sort_values_stable_contract Sample.abc_table
           (rev Sample.abc_table) sort_values_reversing
           sort_values_reversing_contract (Permutation_rev _)).
Defined.

Lemma X9_change_rate_order_free_witness :
  sort_index_contract sort_index_stable /\
  Permutation Sample.eps_from_loss (rev Sample.eps_from_loss) /\
  NoDup (map fst (dropna Sample.eps_from_loss)) /\
  calculate_change_rate sort_index_stable Sample.eps_from_loss 3
  = calculate_change_rate sort_index_stable (rev Sample.eps_from_loss) 3.
Proof.
  split; [exact sort_index_stable_contract|].
  split; [apply Permutation_rev|].
  assert (Hnd : NoDup (map fst (dropna Sample.eps_from_loss))).
  { cbn. repeat constructor; cbn; intuition discriminate. }
  split; [exact Hnd|].
  exact (X9_change_rate_order_free sort_index_stable sort_index_stable
           Sample.eps_from_loss (rev Sample.eps_from_loss) 3
           sort_index_stable_contract sort_index_stable_contract
           (Permutation_rev _) Hnd).
Defined.

Lemma X10_price_frame_witness :
  exists rows,
    fst (get_stock_data_single "7203.T" (Demo.price_provider "7203.T"))
    = Some rows /\
    map ExpectedDividend rows = [Fin 0; Fin 5] /\
    fst (get_stock_data_single "6758.T" (Demo.price_provider "6758.T"))
    = None.
Proof.
  destruct (X10_price_frame "6758.T" (Demo.price_provider "6758.T"))
    as [Hnone _].
  destruct (X10_price_frame "7203.T" (Demo.price_provider "7203.T"))
    as [_ Hsome].
  eexists. split; [reflexivity|].
  destruct (Hsome _ eq_refl) as [hist [Eh [_ [_ [_ [_ Ediv]]]]]].
  injection Eh as <-. split; [exact Ediv|].
  apply Hnone. left. reflexivity.
Defined.

Lemma X11_bulk_table_frames_witness :
  NoDup ["7203.T"; "6758.T"] /\
  length
    (ticker_frame
       (get_stock_data_bulk true Demo.price_provider ["7203.T"; "6758.T"])
       "7203.T") = 2 /\
  ticker_frame
    (get_stock_data_bulk true Demo.price_provider ["7203.T"; "6758.T"])
    "6758.T" = [].
Proof.
  assert (Hnd : NoDup ["7203.T"; "6758.T"]).
  { repeat constructor; cbn; intuition discriminate. }
  split; [exact Hnd|].
  destruct (X11_bulk_table_frames true Demo.price_provider
              ["7203.T"; "6758.T"] "7203.T" Hnd) as [H1 _].
  destruct (X11_bulk_table_frames true Demo.price_provider
              ["7203.T"; "6758.T"] "6758.T" Hnd) as [H2 _].
  split.
  - rewrite (H1 (or_introl eq_refl)). reflexivity.
  - rewrite (H2 (or_intror (or_introl eq_refl))). reflexivity.
Defined.

Lemma X12_first_answer_wins_witness :
  Sample.flaky_provider 2 = Responds IncomeNone InfoRaises /\
  exists r,
    fst (get_fundamental_single sort_index_stable config.YEARS "7203.T"
           Sample.flaky_provider) = Some r /\
    attempts_made
      (snd (get_fundamental_single sort_index_stable config.YEARS "7203.T"
              Sample.flaky_provider)) = 3 /\
    seconds_slept
      (snd (get_fundamental_single sort_index_stable config.YEARS "7203.T"
              Sample.flaky_provider)) = 4.
Proof.
  split; [reflexivity|].
  destruct (X12_first_answer_wins sort_index_stable config.YEARS "7203.T"
              Sample.flaky_provider) as [H _].
  destruct (H 2 IncomeNone InfoRaises) as [r [_ [Hr [Ha Hs]]]].
  - unfold config.MAX_RETRIES. lia.
  - intros a Ha. destruct a as [|[|a]]; [reflexivity | reflexivity | lia].
  - reflexivity.
  - exists r. split; [exact Hr|]. split; [exact Ha | exact Hs].
Defined.

Lemma X13_flag_meaning_witness :
  exists r,
    fundamental_attempt sort_index_stable config.YEARS "7203.T"
      (Responds (IncomeTable Sample.three_year_statement)
         (InfoDict Sample.snapshot)) = Returned r /\
    has_recent_missing_data r = Some false.
Proof.
  eexists. split; [reflexivity|].
  apply (X13_flag_meaning sort_index_stable config.YEARS "7203.T"
           (IncomeTable Sample.three_year_statement)
           (InfoDict Sample.snapshot) _ eq_refl).
  exists Sample.three_year_statement, Sample.snapshot.
  eexists. eexists. repeat split; reflexivity.
Defined.

(** * Substrings *)

Lemma starts_with_app (a b s : string) :
  starts_with (a ++ b) s = true ->
  exists s', s = (a ++ s')%string /\ starts_with b s' = true.
Proof.
  revert s. induction a as [|c a IH]; intros s H.
  - exists s. split; [reflexivity | exact H].
  - destruct s as [|d s]; [discriminate H|]. simpl in H.
    apply andb_true_iff in H. destruct H as [Hc H].
    apply Ascii.eqb_eq in Hc. subst d.
    destruct (IH s H) as [s' [-> Hs']].
    exists s'. split; [reflexivity | exact Hs'].
Qed.

Lemma starts_with_prefix (a b s : string) :
  starts_with (a ++ b) s = true -> starts_with a s = true.
Proof.
  revert s. induction a as [|c a IH]; intros s H; [destruct s; reflexivity|].
  destruct s as [|d s]; [discriminate H|]. simpl in *.
  apply andb_true_iff in H. destruct H as [Hc H].
  rewrite Hc. apply (IH s H).
Qed.

Lemma starts_with_contains (p s : string) :
  starts_with p s = true -> contains p s = true.
Proof.
  intro H. destruct s; simpl; rewrite H; reflexivity.
Qed.

Lemma contains_behind (a p s : string) :
  contains p s = true -> contains p (a ++ s) = true.
Proof.
  intro H. induction a as [|c a IH]; [exact H|].
  simpl. rewrite IH. apply orb_true_r.
Qed.

(** A string that holds [a ++ b] holds [a] and holds [b]. *)
Lemma contains_parts (a b s : string) :
  contains (a ++ b) s = true -> contains a s = true /\ contains b s = true.
Proof.
  induction s as [|c s IH]; intro H.
  - simpl in H. rewrite orb_false_r in H. split.
    + apply starts_with_contains, (starts_with_prefix a b), H.
    + destruct (starts_with_app a b _ H) as [s' [E Hs']].
      rewrite E. apply contains_behind, starts_with_contains, Hs'.
  - simpl in H. apply orb_true_iff in H. destruct H as [H|H].
    + split.
      * apply starts_with_contains, (starts_with_prefix a b), H.
      * destruct (starts_with_app a b _ H) as [s' [E Hs']].
        rewrite E. apply contains_behind, starts_with_contains, Hs'.
    + destruct (IH H) as [Ha Hb]. split.
      * simpl. rewrite Ha. apply orb_true_r.
      * simpl. rewrite Hb. apply orb_true_r.
Qed.

(** * The link to the listing *)

Section ExcelUrlFacts.
Variable urljoin : string -> string -> string.

Lemma xlsx_is_xls (h : string) :
  contains "xls" h || contains "xlsx" h = contains "xls" h.
Proof.
  destruct (contains "xls" h) eqn:E; [reflexivity|]. simpl.
  destruct (contains "xlsx" h) eqn:E'; [|reflexivity].
  destruct (contains_parts "xls" "x" h E') as [K _]. congruence.
Qed.

Lemma scan_anchors_find (anchors candidates : list (string * string)) :
  scan_anchors urljoin anchors candidates
  = match
      find (fun a => contains "xls" (snd a) && contains listing_title (fst a))
        anchors
    with
    | Some a => inl (urljoin config.JPX_BASE_URL (snd a))
    | None =>
        inr (candidates ++ filter (fun a => contains "xls" (snd a)) anchors)
    end.
Proof.
  revert candidates. induction anchors as [|[t h] anchors IH];
    intro candidates.
  - simpl. rewrite app_nil_r. reflexivity.
  - cbn [scan_anchors find filter fst snd]. rewrite xlsx_is_xls.
    destruct (contains "xls" h); cbn [andb].
    + destruct (contains listing_title t); [reflexivity|].
      rewrite IH.
      destruct (find _ anchors); [reflexivity|].
      rewrite <- app_assoc. reflexivity.
    + apply IH.
Qed.

Lemma scan_candidates_find (candidates : list (string * string)) :
  scan_candidates urljoin candidates
  = match find (fun a => contains "data_j.xls" (snd a)) candidates with
    | Some a => Ok (urljoin config.JPX_BASE_URL (snd a))
    | None => Raise ValueError
    end.
Proof.
  induction candidates as [|[t h] candidates IH]; [reflexivity|].
  cbn [scan_candidates find snd].
  destruct (contains "data_j.xls" h); [reflexivity | exact IH].
Qed.

Lemma find_among_xls (anchors : list (string * string)) :
  find (fun a => contains "data_j.xls" (snd a))
    (filter (fun a => contains "xls" (snd a)) anchors)
  = find (fun a => contains "data_j.xls" (snd a)) anchors.
Proof.
  induction anchors as [|[t h] anchors IH]; [reflexivity|].
  cbn [filter find snd].
  destruct (contains "data_j.xls" h) eqn:E.
  - destruct (contains_parts "data_j." "xls" h E) as [_ K].
    rewrite K. cbn [find snd]. rewrite E. reflexivity.
  - destruct (contains "xls" h); [cbn [find snd]; rewrite E|]; exact IH.
Qed.

(** X16.  Which link [_get_excel_url] picks.  The first anchor whose
    [href] holds "xls" and whose text holds the listing's title wins,
    wherever it stands; failing that, the first anchor whose [href]
    holds "data_j.xls"; failing that, a [ValueError].  Every URL that is
    returned is [urljoin] of the base URL and the [href] of an anchor of
    the page whose [href] holds "xls". *)
Theorem X16_excel_link (anchors : list (string * string)) :
  _get_excel_url urljoin (Page anchors)
  = match
      find (fun a => contains "xls" (snd a) && contains listing_title (fst a))
        anchors
    with
    | Some a => Ok (urljoin config.JPX_BASE_URL (snd a))
    | None =>
        match find (fun a => contains "data_j.xls" (snd a)) anchors with
        | Some a => Ok (urljoin config.JPX_BASE_URL (snd a))
        | None => Raise ValueError
        end
    end /\
  forall url, _get_excel_url urljoin (Page anchors) = Ok url ->
    exists a, In a anchors /\ contains "xls" (snd a) = true /\
      url = urljoin config.JPX_BASE_URL (snd a).
Proof.
  assert (E : _get_excel_url urljoin (Page anchors)
              = match
                  find (fun a => contains "xls" (snd a)
                                 && contains listing_title (fst a)) anchors
                with
                | Some a => Ok (urljoin config.JPX_BASE_URL (snd a))
                | None =>
                    match find (fun a => contains "data_j.xls" (snd a))
                            anchors with
                    | Some a => Ok (urljoin config.JPX_BASE_URL (snd a))
                    | None => Raise ValueError
                    end
                end).
  { unfold _get_excel_url. rewrite scan_anchors_find.
    destruct (find _ anchors); [reflexivity|].
    cbn [app]. rewrite scan_candidates_find, find_among_xls. reflexivity. }
  split; [exact E|]. intros url H. rewrite E in H.
  destruct (find (fun a => contains "xls" (snd a)
                           && contains listing_title (fst a)) anchors)
    as [a|] eqn:F1.
  - apply find_some in F1. destruct F1 as [Hin Ha].
    apply andb_true_iff in Ha. injection H as <-.
    exists a. repeat split; [exact Hin | exact (proj1 Ha)].
  - destruct (find (fun a => contains "data_j.xls" (snd a)) anchors)
      as [a|] eqn:F2; [|discriminate H].
    apply find_some in F2. destruct F2 as [Hin Ha]. injection H as <-.
    exists a. repeat split; [exact Hin|].
    exact (proj2 (contains_parts "data_j." "xls" (snd a) Ha)).
Qed.

End ExcelUrlFacts.

(** * The TOPIX 100 codes *)

Lemma flat_map_short {A B : Type} (f : A -> list B) (l : list A) :
  (forall x, length (f x) <= 1) -> length (flat_map f l) <= length l.
Proof.
  intro H. induction l as [|x l IH]; [simpl; lia|].
  cbn [flat_map]. rewrite length_app. specialize (H x). simpl. lia.
Qed.

Section ExtractFacts.
Variable float_str : float -> string.
Variable strip : string -> string.
Variable int_of_str : string -> option Z.

Local Abbreviation header row := (is_header_row float_str row).

Local Abbreviation extract df :=
  (_extract_topix100 float_str strip int_of_str df).

(** What the search for the header row comes to. *)
Lemma find_header_spec (rows : list (list xcell)) (i steps : nat) :
  match find_header float_str rows i steps with
  | Raise e =>
      e = IndexError /\ length rows < steps /\
      forall row, In row rows -> header row = false
  | Ok None =>
      steps <= length rows /\
      forall row, In row (firstn steps rows) -> header row = false
  | Ok (Some k) =>
      exists j, k = i + j /\ j < steps /\ j < length rows /\
        header (nth j rows []) = true /\
        forall row, In row (firstn j rows) -> header row = false
  end.
Proof.
  revert rows i. induction steps as [|steps IH]; intros rows i.
  - assert (E : find_header float_str rows i 0 = Ok None)
      by (destruct rows; reflexivity).
    rewrite E. split; [lia|]. intros row Hr.
    rewrite firstn_0 in Hr. destruct Hr.
  - destruct rows as [|row rows]; cbn [find_header].
    + split; [reflexivity|]. split; [simpl; lia|]. intros row [].
    + destruct (header row) eqn:E.
      * exists 0. split; [lia|]. split; [lia|]. split; [simpl; lia|].
        split; [exact E|]. intros r Hr. destruct Hr.
      * specialize (IH rows (S i)).
        destruct (find_header float_str rows (S i) steps) as [[k|]|e].
        -- destruct IH as [j [Ek [Hj [Hl [Hh Hn]]]]].
           exists (S j). split; [lia|]. split; [lia|].
           split; [simpl; lia|]. split; [exact Hh|].
           intros r [<-|Hr]; [exact E | apply Hn, Hr].
        -- destruct IH as [Hl Hn]. split; [simpl; lia|].
           intros r [<-|Hr]; [exact E | apply Hn, Hr].
        -- destruct IH as [He [Hl Hn]]. split; [exact He|].
           split; [simpl; lia|].
           intros r [<-|Hr]; [exact E | apply Hn, Hr].
Qed.

Ltac split_positions :=
  repeat match goal with
         | |- context [match position ?n ?c with _ => _ end] =>
             destruct (position n c)
         end.

(** X17.  How [_extract_topix100] fails.  It raises only IndexError or
    ValueError.  It raises IndexError exactly when the sheet has fewer
    than ten rows and none of them holds both header names, and it does
    so even when the column labels of the sheet are already the two
    names: the labels are looked at only after ten rows have been
    read. *)
Theorem X17_extract_errors (df : xframe) :
  (extract df = Raise IndexError <->
   length (body df) < 10 /\
   forall row, In row (body df) -> header row = false) /\
  (forall e, extract df = Raise e -> e = IndexError \/ e = ValueError).
Proof.
  pose proof (find_header_spec (body df) 0 10) as H.
  unfold _extract_topix100.
  destruct (find_header float_str (body df) 0 10) as [[k|]|e] eqn:F.
  - destruct H as [j [_ [_ [Hl [Hh Hn]]]]].
    assert (Hnot : ~ (length (body df) < 10 /\
                      forall row, In row (body df) -> header row = false)).
    { intros [_ K]. rewrite K in Hh; [discriminate Hh|].
      apply nth_In, Hl. }
    split_positions;
      (split; [split; [discriminate | intro K; contradiction]|]);
      intros e He; try discriminate He; injection He as <-; auto.
  - destruct H as [Hl _].
    assert (Hnot : ~ (length (body df) < 10 /\
                      forall row, In row (body df) -> header row = false))
      by (intros [K _]; lia).
    destruct (existsb (label_is code_col) (labels df)
              && existsb (label_is size_col) (labels df));
      [split_positions|];
      (split; [split; [discriminate | intro K; contradiction]|]);
      intros e He; try discriminate He; injection He as <-; auto.
  - destruct H as [-> [Hl Hn]]. split.
    + split; [intros _; split; assumption | reflexivity].
    + intros e He. injection He as <-. auto.
Qed.

Lemma extracted_form (df : xframe) (tickers : list string) :
  extract df = Ok tickers ->
  forall t, In t tickers -> exists z, t = (decimal z ++ ".T")%string.
Proof.
  unfold _extract_topix100.
  destruct (find_header float_str (body df) 0 10) as [[k|]|e];
    [| |discriminate].
  - destruct (position code_col _) as [pc|]; [|discriminate].
    destruct (position size_col _) as [ps|]; [|discriminate].
    intro H. injection H as <-. intros t Ht.
    apply in_flat_map in Ht. destruct Ht as [row [_ Ht]].
    destruct (py_int int_of_str (nth pc row empty_cell)) as [z|];
      [|destruct Ht].
    destruct Ht as [<-|[]]. exists z. reflexivity.
  - destruct (existsb (label_is code_col) (labels df)
              && existsb (label_is size_col) (labels df)); [|discriminate].
    destruct (position code_col _) as [pc|]; [|discriminate].
    destruct (position size_col _) as [ps|]; [|discriminate].
    intro H. injection H as <-. intros t Ht.
    apply in_flat_map in Ht. destruct Ht as [row [_ Ht]].
    destruct (py_int int_of_str (nth pc row empty_cell)) as [z|];
      [|destruct Ht].
    destruct Ht as [<-|[]]. exists z. reflexivity.
Qed.

(** X18.  What [_extract_topix100] returns.  Every ticker of the result
    is the decimal writing of an integer followed by ".T", where the
    integer is what [int] makes of a cell of some row of the sheet, a
    row that also has a cell whose text holds "Core30" or "Large70".
    Rows whose code does not convert leave no ticker and raise nothing,
    so the result is never longer than the sheet. *)
Theorem X18_extract_tickers (df : xframe) (tickers : list string) :
  extract df = Ok tickers ->
  (forall t, In t tickers ->
     exists row pc ps z,
       In row (body df) /\
       py_int int_of_str (nth pc row empty_cell) = Some z /\
       in_topix100 (py_str float_str (nth ps row empty_cell)) = true /\
       t = (decimal z ++ ".T")%string) /\
  length tickers <= length (body df).
Proof.
  unfold _extract_topix100.
  destruct (find_header float_str (body df) 0 10) as [[k|]|e];
    [| |discriminate].
  - set (rows := skipn (k + 1) (body df)).
    destruct (position code_col _) as [pc|] eqn:Epc; [|discriminate].
    destruct (position size_col _) as [ps|] eqn:Eps; [|discriminate].
    intro H. injection H as <-. split.
    + intros t Ht. apply in_flat_map in Ht. destruct Ht as [row [Hrow Ht]].
      apply filter_In in Hrow. destruct Hrow as [Hrow Hsize].
      destruct (py_int int_of_str (nth pc row empty_cell)) as [z|] eqn:Ez;
        [|destruct Ht].
      destruct Ht as [<-|[]]. exists row, pc, ps, z.
      repeat split; try assumption.
      unfold rows in Hrow.
      rewrite <- (firstn_skipn (k + 1) (body df)).
      apply in_or_app. right. exact Hrow.
    + eapply Nat.le_trans with (length rows).
      * eapply Nat.le_trans; [apply flat_map_short|apply filter_length_le].
        intro row.
        destruct (py_int int_of_str (nth pc row empty_cell)); simpl; lia.
      * unfold rows. rewrite length_skipn. lia.
  - destruct (existsb (label_is code_col) (labels df)
              && existsb (label_is size_col) (labels df)); [|discriminate].
    destruct (position code_col _) as [pc|] eqn:Epc; [|discriminate].
    destruct (position size_col _) as [ps|] eqn:Eps; [|discriminate].
    intro H. injection H as <-. split.
    + intros t Ht. apply in_flat_map in Ht. destruct Ht as [row [Hrow Ht]].
      apply filter_In in Hrow. destruct Hrow as [Hrow Hsize].
      destruct (py_int int_of_str (nth pc row empty_cell)) as [z|] eqn:Ez;
        [|destruct Ht].
      destruct Ht as [<-|[]]. exists row, pc, ps, z.
      repeat split; assumption.
    + eapply Nat.le_trans; [apply flat_map_short|apply filter_length_le].
      intro row.
      destruct (py_int int_of_str (nth pc row empty_cell)); simpl; lia.
Qed.

End ExtractFacts.

(** * The ticker file *)

Section ManagerFacts.
Variable float_str : float -> string.
Variable strip : string -> string.
Variable int_of_str : string -> option Z.
Variable urljoin : string -> string -> string.
Variable read_excel : string -> result xframe.

Local Abbreviation update now page file :=
  (update_tickers float_str strip int_of_str urljoin read_excel now page file).

Local Abbreviation load now page file :=
  (load_tickers float_str strip int_of_str urljoin read_excel now page file).

(** An update either leaves the file alone and raises, or writes a
    non-empty list of tickers of the form [<integer>.T], stamped [now]. *)
Lemma update_tickers_cases (now : Z) (page : page_response)
    (file : option ticker_file) :
  (exists e, update now page file = (Raise e, file)) \/
  (exists tickers,
     update now page file
     = (Ok tt, Some {| mtime := now; stored := tickers |}) /\
     tickers <> [] /\
     forall t, In t tickers -> exists z, t = (decimal z ++ ".T")%string).
Proof.
  unfold update_tickers.
  destruct (_get_excel_url urljoin page) as [url|e];
    [|left; exists e; reflexivity].
  destruct (read_excel url) as [df|e]; [|left; exists e; reflexivity].
  destruct (_extract_topix100 float_str strip int_of_str df)
    as [tickers|e] eqn:E; [|left; exists e; reflexivity].
  destruct tickers as [|t tickers]; [left; exists ValueError; reflexivity|].
  right. exists (t :: tickers). split; [reflexivity|].
  split; [discriminate|]. intros t' Ht'.
  exact (extracted_form float_str strip int_of_str df _ E t' Ht').
Qed.

(** X19.  [load_tickers].  A file not older than 180 days is returned
    as it is, without any update.  Otherwise an update is tried: when it
    succeeds, the new list is written, stamped with the current time,
    and returned, and it is non-empty and made of tickers of the form
    [<integer>.T]; when it fails and a file exists, the old list is
    returned and the file is left alone; when it fails and there is no
    file, RuntimeError is raised, the only exception [load_tickers]
    raises.  Whenever a list is returned, it is the list the file holds
    afterwards. *)
Theorem X19_load_tickers (now : Z) (page : page_response)
    (file : option ticker_file) :
  let out := load now page file in
  (forall f, file = Some f ->
     (now - mtime f <= 180 * 86400)%Z ->
     out = (Ok (stored f), file)) /\
  (forall e, fst out = Raise e ->
     e = RuntimeError /\ file = None /\ snd out = None /\
     exists e', update now page file = (Raise e', None)) /\
  (forall f, file = Some f ->
     fst out = Ok (stored f) /\ snd out = file \/
     exists tickers,
       out = (Ok tickers, Some {| mtime := now; stored := tickers |}) /\
       tickers <> [] /\
       (forall t, In t tickers ->
          exists z, t = (decimal z ++ ".T")%string) /\
       (now - mtime f > 180 * 86400)%Z) /\
  (forall tickers, fst out = Ok tickers ->
     exists f', snd out = Some f' /\ stored f' = tickers).
Proof.
  intro out. unfold out, load_tickers, _should_update,
    config.TICKER_UPDATE_INTERVAL_DAYS.
  destruct file as [f|].
  - destruct (now - mtime f >? 180 * 86400)%Z eqn:Hage.
    + apply Z.gtb_lt in Hage.
      destruct (update_tickers_cases now page (Some f))
        as [[e Hu]|[tickers [Hu [Hne Hform]]]]; rewrite Hu; cbn.
      * split; [intros f' E Hfresh; injection E as <-; lia|].
        split; [intros e' K; discriminate K|].
        split; [intros f' E; injection E as <-; left; split; reflexivity|].
        intros tickers K. injection K as <-. exists f. split; reflexivity.
      * split; [intros f' E Hfresh; injection E as <-; lia|].
        split; [intros e' K; discriminate K|].
        split.
        -- intros f' E. injection E as <-. right. exists tickers.
           repeat split; try assumption. lia.
        -- intros l K. injection K as <-.
           eexists. split; reflexivity.
    + cbn. split; [intros f' E _; injection E as <-; reflexivity|].
      split; [intros e' K; discriminate K|].
      split; [intros f' E; injection E as <-; left; split; reflexivity|].
      intros tickers K. injection K as <-. exists f. split; reflexivity.
  - destruct (update_tickers_cases now page None)
      as [[e Hu]|[tickers [Hu [Hne Hform]]]]; rewrite Hu; cbn.
    + split; [intros f E; discriminate E|].
      split.
      * intros e' K. injection K as <-. repeat split. exists e. reflexivity.
      * split; [intros f E; discriminate E|]. intros l K. discriminate K.
    + split; [intros f E; discriminate E|].
      split; [intros e' K; discriminate K|].
      split; [intros f E; discriminate E|].
      intros l K. injection K as <-. eexists. split; reflexivity.
Qed.

End ManagerFacts.
